(** * Notion_Scripts: the capture-and-extraction pipeline

    A shallow embedding of the three pure cores of [Not_JoAps.py] and
    [Not_JoAps-WD.py]:

    - [sanitize_for_filename];
    - [compress_png_to_pdf_under_size], the downscaling loop, run over an
      explicit file system and an explicit codec;
    - [extract_job_info_from_html], the title and company cascades, run over
      the parsed document ([BeautifulSoup(html, "html.parser")]) and the
      host name of the URL ([urlparse(url).hostname]).

    Conventions.  Python [str] is [string]; characters are read as 7-bit
    ASCII, so the whitespace, case and word-character tests below are the
    ASCII ones.  A Python variable that holds [None] or a string is an
    [option string]; [truthy] is Python's truth test on it.  The float
    [scale] is a binary64 [float], multiplied and compared by the kernel's
    primitive operations. *)

From Stdlib Require Import ZArith Bool List Ascii String Lia.
From Stdlib Require Import PrimFloat Uint63 SpecFloat FloatOps.
From stdpp Require Import gmap strings.

Local Open Scope string_scope.
Local Open Scope Z_scope.

(** ** Python string operations *)

Module Py.

(** [str.isspace] on ASCII: TAB LF VT FF CR, FS GS RS US, and space. *)
Definition is_space (c : ascii) : bool :=
  let n := nat_of_ascii c in
  ((9 <=? n) && (n <=? 13) || (28 <=? n) && (n <=? 32))%nat.

Definition is_upper (c : ascii) : bool :=
  let n := nat_of_ascii c in ((65 <=? n) && (n <=? 90))%nat.

Definition is_lower (c : ascii) : bool :=
  let n := nat_of_ascii c in ((97 <=? n) && (n <=? 122))%nat.

Definition is_digit (c : ascii) : bool :=
  let n := nat_of_ascii c in ((48 <=? n) && (n <=? 57))%nat.

(** The class [\w] of [re]: letters, digits and the underscore. *)
Definition is_word (c : ascii) : bool :=
  is_upper c || is_lower c || is_digit c || Ascii.eqb c "_".

Definition lower_char (c : ascii) : ascii :=
  if is_upper c then ascii_of_nat (nat_of_ascii c + 32) else c.

Definition upper_char (c : ascii) : ascii :=
  if is_lower c then ascii_of_nat (nat_of_ascii c - 32) else c.

(** [s.lower()] *)
Fixpoint lower (s : string) : string :=
  match s with
  | EmptyString => EmptyString
  | String c s' => String (lower_char c) (lower s')
  end.

(** [s.capitalize()]: first character upper-cased, the rest lower-cased. *)
Definition capitalize (s : string) : string :=
  match s with
  | EmptyString => EmptyString
  | String c s' => String (upper_char c) (lower s')
  end.

(** [s[:n]] and [s[n:]] *)
Fixpoint take (n : nat) (s : string) : string :=
  match n, s with
  | S k, String c s' => String c (take k s')
  | _, _ => EmptyString
  end.

Fixpoint drop (n : nat) (s : string) : string :=
  match n, s with
  | S k, String _ s' => drop k s'
  | _, _ => s
  end.

Definition is_empty (s : string) : bool :=
  match s with EmptyString => true | String _ _ => false end.

Definition mem_char (c : ascii) (cs : string) : bool :=
  existsb (Ascii.eqb c) (list_ascii_of_string cs).

(** [s.lstrip(..)], [s.rstrip(..)], [s.strip(..)] for a set of characters
    given by its test. *)
Fixpoint lstrip_by (p : ascii -> bool) (s : string) : string :=
  match s with
  | EmptyString => EmptyString
  | String c s' => if p c then lstrip_by p s' else s
  end.

Fixpoint rstrip_by (p : ascii -> bool) (s : string) : string :=
  match s with
  | EmptyString => EmptyString
  | String c s' =>
      let r := rstrip_by p s' in
      if is_empty r && p c then EmptyString else String c r
  end.

Definition strip_by (p : ascii -> bool) (s : string) : string :=
  rstrip_by p (lstrip_by p s).

(** [s.strip()] *)
Definition strip (s : string) : string := strip_by is_space s.

(** [s.strip(chars)] *)
Definition strip_chars (chars s : string) : string :=
  strip_by (fun c => mem_char c chars) s.

(** [sub in s] *)
Fixpoint contains (sub s : string) : bool :=
  String.prefix sub s ||
  match s with
  | EmptyString => false
  | String _ s' => contains sub s'
  end.

(** [s.replace(old, new)] for a non-empty [old]: occurrences are found
    from the left and do not overlap.  [skip] counts the characters of a
    matched occurrence still to be passed over. *)
Fixpoint replace_from (old new : string) (skip : nat) (s : string) : string :=
  match s with
  | EmptyString => EmptyString
  | String c s' =>
      match skip with
      | S k => replace_from old new k s'
      | O =>
          if String.prefix old s
          then new ++ replace_from old new (String.length old - 1) s'
          else String c (replace_from old new 0 s')
      end
  end.

Definition replace (old new s : string) : string := replace_from old new 0 s.

(** [s.split(sep)] for a non-empty [sep]; the result is never empty. *)
Fixpoint split_from (sep : string) (skip : nat) (s : string) : list string :=
  match s with
  | EmptyString => [EmptyString]
  | String c s' =>
      match skip with
      | S k => split_from sep k s'
      | O =>
          if String.prefix sep s
          then EmptyString :: split_from sep (String.length sep - 1) s'
          else match split_from sep 0 s' with
               | p :: ps => String c p :: ps
               | [] => [String c EmptyString]
               end
      end
  end.

Definition split (sep s : string) : list string := split_from sep 0 s.

(** [s.split(sep, 1)]: cut at the first occurrence only.  [partition]
    gives the text before and after it, when there is one. *)
Fixpoint partition (sep s : string) : option (string * string) :=
  if String.prefix sep s then Some (EmptyString, drop (String.length sep) s)
  else match s with
       | EmptyString => None
       | String c s' =>
           match partition sep s' with
           | Some (a, b) => Some (String c a, b)
           | None => None
           end
       end.

Definition split1 (sep s : string) : list string :=
  match partition sep s with
  | Some (a, b) => [a; b]
  | None => [s]
  end.

(** [s.split()]: the maximal runs of non-whitespace characters. *)
Fixpoint words_from (cur : option string) (s : string) : list string :=
  match s with
  | EmptyString => match cur with Some w => [w] | None => [] end
  | String c s' =>
      if is_space c
      then match cur with
           | Some w => w :: words_from None s'
           | None => words_from None s'
           end
      else words_from (Some (match cur with
                             | Some w => w ++ String c EmptyString
                             | None => String c EmptyString
                             end)) s'
  end.

Definition words (s : string) : list string := words_from None s.

(** [sep.join(l)] *)
Fixpoint join (sep : string) (l : list string) : string :=
  match l with
  | [] => EmptyString
  | [x] => x
  | x :: l' => x ++ sep ++ join sep l'
  end.

(** [l[0]], [l[-1]] and [l[-2]] on lists that have the element. *)
Definition first (l : list string) : string := List.hd EmptyString l.
Definition last (l : list string) : string := List.last l EmptyString.
Definition second_last (l : list string) : string :=
  List.last (List.removelast l) EmptyString.

(** Python's truth test on a variable holding [None] or a string. *)
Definition truthy (o : option string) : bool :=
  match o with
  | Some (String _ _) => true
  | _ => false
  end.

(** [x or d] where [d] is a string. *)
Definition or_else (o : option string) (d : string) : string :=
  match o with
  | Some (String c s) => String c s
  | _ => d
  end.

End Py.

(** ** Regular expressions of the source, each by its own matcher *)

Module Re.

(** [re.sub(r"\s+", " ", text)]: every maximal run of whitespace becomes
    one space.  [in_run] tells that the previous character was whitespace. *)
Fixpoint collapse_ws (in_run : bool) (s : string) : string :=
  match s with
  | EmptyString => EmptyString
  | String c s' =>
      if Py.is_space c
      then if in_run then collapse_ws true s'
           else String " " (collapse_ws true s')
      else String c (collapse_ws false s')
  end.

Definition sub_whitespace (s : string) : string := collapse_ws false s.

(** The character class of the second substitution: backslash, slash,
    colon, star, question mark, double quote (code 34), the two angle
    brackets and the bar. *)
Definition forbidden (c : ascii) : bool :=
  Py.mem_char c (String "\" (String "/" (String ":" (String "*" (String "?"
    (String (ascii_of_nat 34) (String "<" (String ">" (String "|" EmptyString))))))))).

(** [re.sub] of that class by the empty string. *)
Fixpoint sub_forbidden (s : string) : string :=
  match s with
  | EmptyString => EmptyString
  | String c s' => if forbidden c then sub_forbidden s' else String c (sub_forbidden s')
  end.

(** [re.compile(value, re.I).search(s)] for the literal patterns of the
    source (letters and hyphens): a substring test that ignores case. *)
Definition isearch (value s : string) : bool :=
  Py.contains (Py.lower value) (Py.lower s).

(** The alternatives of [\b(Careers?|Jobs?|Hiring)\b] in the order in
    which the matcher tries them: the optional [s] is greedy. *)
Definition suffix_words : list string :=
  ["careers"; "career"; "jobs"; "job"; "hiring"].

(** [\b] after a match that ends in a letter: the end of the text or a
    character outside [\w]. *)
Definition boundary_before (rest : string) : bool :=
  match rest with
  | EmptyString => true
  | String c _ => negb (Py.is_word c)
  end.

(** The length of the match of [(Careers?|Jobs?|Hiring)\b], letters of
    either case, at the head of [s]. *)
Definition match_suffix_word (s : string) : option nat :=
  let hit w :=
    String.eqb (Py.lower (Py.take (String.length w) s)) w
    && boundary_before (Py.drop (String.length w) s) in
  option_map String.length (List.find hit suffix_words).

(** [re.sub(r"\b(Careers?|Jobs?|Hiring)\b", "", s, flags=re.IGNORECASE)].
    [prev_word] tells that the character before the head is in [\w], in
    which case no match starts here; [skip] is as in [Py.replace_from]. *)
Fixpoint sub_suffix_words_from (skip : nat) (prev_word : bool) (s : string)
  : string :=
  match s with
  | EmptyString => EmptyString
  | String c s' =>
      match skip with
      | S k => sub_suffix_words_from k (Py.is_word c) s'
      | O =>
          match (if prev_word then None else match_suffix_word s) with
          | Some n => sub_suffix_words_from (n - 1) (Py.is_word c) s'
          | None => String c (sub_suffix_words_from 0 (Py.is_word c) s')
          end
      end
  end.

Definition sub_suffix_words (s : string) : string :=
  sub_suffix_words_from 0 false s.

End Re.

(** ** [sanitize_for_filename] (the same text in both scripts) *)

Definition sanitize_for_filename (text : string) : string :=
  if Py.is_empty text then "Unknown"
  else
    let text := Py.strip (Re.sub_whitespace text) in
    let text := Re.sub_forbidden text in
    let text := Py.replace " " "_" text in
    Py.or_else (Some (Py.take 80 text)) "Unknown".

(** ** The compressor: [compress_png_to_pdf_under_size]

    The function of [Not_JoAps.py] (lines 103-143); [Not_JoAps-WD.py] has the
    same statements without the comments. *)

Set Warnings "-inexact-float,-register-all".

Module Compressor.

(** Python's [width * scale] converts the integer to a float first; a size
    in pixels is far below [2 ^ 63], the range of the conversion used here. *)
Definition float_of_Z (z : Z) : float := PrimFloat.of_uint63 (Uint63.of_Z z).

(** The exact value [m * 2 ^ e] of a finite float, cut to an integer by
    [cut], which receives the mantissa and the number of binary digits
    below the unit. *)
Definition integral (cut : positive -> positive -> Z) (f : float) : Z :=
  match Prim2SF f with
  | S754_finite s m e =>
      let v := match e with
               | Z0 => Zpos m
               | Zpos p => Zpos m * 2 ^ Zpos p
               | Zneg p => cut m p
               end in
      if s then - v else v
  | _ => 0
  end.

(** [int(x)]: truncation towards zero.  The product of a size and a scale
    is finite, so the other classes of floats are not met. *)
Definition int_of_float : float -> Z :=
  integral (fun m p => Zpos m / 2 ^ Zpos p).

(** [round(x)]: to the nearest integer, ties to the even one.  The source
    does not call it; the specification's width formula does. *)
Definition round_of_float : float -> Z :=
  integral (fun m p =>
    let q := Zpos m / 2 ^ Zpos p in
    let r := Zpos m mod 2 ^ Zpos p in
    match 2 * r ?= 2 ^ Zpos p with
    | Lt => q
    | Gt => q + 1
    | Eq => if Z.even q then q else q + 1
    end).

(** *** Files *)

Inductive kind := Png | Jpeg | Pdf.

Record file := File { f_kind : kind; f_width : Z; f_height : Z; f_bytes : Z }.

Abbreviation FS := (gmap string file).

(** Pillow on the bitmap at hand: whether [resize] accepts a target, and
    the byte sizes of the JPEG (quality 85) and of the PDF made from it. *)
Record Codec := {
  resize_ok : Z -> Z -> bool;
  jpeg_bytes : Z -> Z -> Z;
  pdf_bytes : Z -> Z -> Z
}.

(** *** Effects: a file system threaded through calls that may raise *)

Inductive exn := FileNotFoundError | UnidentifiedImageError | ValueError.

Inductive result (A : Type) := Ok (a : A) | Raise (e : exn).
Arguments Ok {A} a.
Arguments Raise {A} e.

Definition M (A : Type) : Type := FS -> result A * FS.

#[export] Instance M_ret : MRet M := fun A a fs => (Ok a, fs).

#[export] Instance M_bind : MBind M := fun A B k m fs =>
  match m fs with
  | (Ok a, fs') => k a fs'
  | (Raise e, fs') => (Raise e, fs')
  end.

Definition raise {A} (e : exn) : M A := fun fs => (Raise e, fs).

(** [Image.open(path)], as far as its size goes *)
Definition image_open (path : string) : M (Z * Z) := fun fs =>
  match fs !! path with
  | None => (Raise FileNotFoundError, fs)
  | Some f =>
      match f_kind f with
      | Pdf => (Raise UnidentifiedImageError, fs)
      | _ => (Ok (f_width f, f_height f), fs)
      end
  end.

Definition write (path : string) (f : file) : M unit := fun fs =>
  (Ok tt, <[path := f]> fs).

(** [os.path.getsize], [os.path.exists], [os.remove], [shutil.move] *)
Definition getsize (path : string) : M Z := fun fs =>
  match fs !! path with
  | Some f => (Ok (f_bytes f), fs)
  | None => (Raise FileNotFoundError, fs)
  end.

Definition exists_ (path : string) : M bool := fun fs =>
  (Ok (bool_decide (is_Some (fs !! path))), fs).

Definition remove (path : string) : M unit := fun fs =>
  match fs !! path with
  | Some _ => (Ok tt, delete path fs)
  | None => (Raise FileNotFoundError, fs)
  end.

Definition move (src dst : string) : M unit := fun fs =>
  match fs !! src with
  | Some f => (Ok tt, <[dst := f]> (delete src fs))
  | None => (Raise FileNotFoundError, fs)
  end.

(** *** The loop *)

(** One pass of the loop body up to the size test, kept as a ghost record. *)
Record Attempt := {
  att_scale : float;
  att_w : Z;
  att_h : Z;
  att_size : Z
}.

(** Which [return pdf_path] was taken: the one inside the loop or the
    fallback after it. *)
Inductive Exit := InLoop | AfterLoop.

(** The value returned, with the ghost record of the run. *)
Record Return := {
  ret_path : string;
  ret_exit : Exit;
  ret_attempts : list Attempt
}.

Definition min_width : Z := 800.

Definition target_w (width : Z) (scale : float) : Z :=
  Z.max min_width (int_of_float (float_of_Z width * scale)).

Definition target_h (height : Z) (scale : float) : Z :=
  int_of_float (float_of_Z height * scale).

(** The test [size <= max_bytes or scale <= 0.4] *)
Definition accepts (max_bytes : Z) (scale : float) (size : Z) : bool :=
  (size <=? max_bytes) || (scale <=? 0.4)%float.

Section Loop.

Variable codec : Codec.
Variables (width height : Z) (pdf_path temp_jpeg tmp_pdf : string).
Variable max_bytes : Z.

(** The statements after an accepted attempt, and after the loop. *)
Definition finish (e : Exit) (log : list Attempt) : M Return :=
  move tmp_pdf pdf_path ;;
  b ← exists_ temp_jpeg ;
  (if b : bool then remove temp_jpeg else mret tt) ;;
  mret {| ret_path := pdf_path; ret_exit := e; ret_attempts := log |}.

(** [for _ in range(n)] with [scale] carried along; [log] holds the
    attempts made so far. *)
Fixpoint attempts (n : nat) (scale : float) (log : list Attempt) : M Return :=
  match n with
  | O => finish AfterLoop log
  | S n' =>
      let w := target_w width scale in
      let h := target_h height scale in
      (if resize_ok codec w h then mret tt else raise ValueError) ;;
      write temp_jpeg (File Jpeg w h (jpeg_bytes codec w h)) ;;
      '(jw, jh) ← image_open temp_jpeg ;
      write tmp_pdf (File Pdf jw jh (pdf_bytes codec jw jh)) ;;
      size ← getsize tmp_pdf ;
      let log' := (log ++ [{| att_scale := scale; att_w := w; att_h := h;
                              att_size := size |}])%list in
      if accepts max_bytes scale size
      then finish InLoop log'
      else attempts n' (scale * 0.8)%float log'
  end.

End Loop.

Definition compress_png_to_pdf_under_size (codec : Codec)
    (png_path pdf_path : string) (max_bytes : Z) : M Return :=
  '(width, height) ← image_open png_path ;
  let temp_jpeg := Py.replace ".png" "_tmp.jpg" png_path in
  let tmp_pdf := pdf_path ++ ".tmp" in
  attempts codec width height pdf_path temp_jpeg tmp_pdf max_bytes 7 1.0%float [].

(** *** The run of the loop as a pure function

    [plan] lists the attempts the loop makes from a given scale and tells
    how it ends; [attempts_plan] below shows the loop does exactly that. *)

Inductive Outcome := Accepted | Exhausted | Refused.

Definition exit_of (o : Outcome) : Exit :=
  match o with Accepted => InLoop | _ => AfterLoop end.

Fixpoint scale_from (scale : float) (i : nat) : float :=
  match i with
  | O => scale
  | S k => scale_from (scale * 0.8)%float k
  end.

Section Plan.

Variable codec : Codec.
Variables (width height : Z) (max_bytes : Z).

Definition attempt_at (scale : float) : Attempt :=
  {| att_scale := scale;
     att_w := target_w width scale;
     att_h := target_h height scale;
     att_size := pdf_bytes codec (target_w width scale) (target_h height scale) |}.

Fixpoint plan (n : nat) (scale : float) : list Attempt * Outcome :=
  match n with
  | O => ([], Exhausted)
  | S n' =>
      if resize_ok codec (target_w width scale) (target_h height scale)
      then
        let a := attempt_at scale in
        if accepts max_bytes scale (att_size a) then ([a], Accepted)
        else let '(l, o) := plan n' (scale * 0.8)%float in (a :: l, o)
      else ([], Refused)
  end.

End Plan.

(** The document the loop delivers: the PDF of the last attempt, or [f0],
    the file found at the scratch path, when no attempt was made. *)
Definition last_file (l : list Attempt) (f0 : file) : file :=
  match last l with
  | Some a => File Pdf (att_w a) (att_h a) (att_size a)
  | None => f0
  end.

(** The target of the specification, in its words: the width is
    [max(minWidthPixels, round(originalWidth * scale))], and the height is
    in proportion.  [proportional] allows one pixel of rounding in each
    dimension. *)
Definition spec_target_w (width : Z) (scale : float) : Z :=
  Z.max min_width (round_of_float (float_of_Z width * scale)).

Definition proportional (width height w h : Z) : bool :=
  Z.abs (w * height - h * width) <=? width + height.

End Compressor.

(** ** The parsed document: [BeautifulSoup(html, "html.parser")]

    The tree as bs4 (4.11 and later) builds it.  Tag and attribute names are
    lower-cased by the parser; an attribute value is kept as the text written
    in the page. *)

Module Soup.

(** The classes of strings of a tree.  [get_text] of a tag reads one class
    only: script text below [script], style text below [style], template
    text below [template], and plain text (with CDATA) anywhere else;
    comments, declarations and the like are never read. *)
Inductive StrClass := Plain | ScriptText | StyleText | TemplateText | OtherText.

Inductive Node :=
| Str (c : StrClass) (s : string)
| Tag (name : string) (attrs : list (string * string)) (contents : list Node).

Definition class_eqb (a b : StrClass) : bool :=
  match a, b with
  | Plain, Plain | ScriptText, ScriptText | StyleText, StyleText
  | TemplateText, TemplateText | OtherText, OtherText => true
  | _, _ => false
  end.

(** [d.get(key)] on the attributes of a tag *)
Fixpoint lookup_attr (key : string) (attrs : list (string * string))
  : option string :=
  match attrs with
  | [] => None
  | (k, v) :: rest => if String.eqb k key then Some v else lookup_attr key rest
  end.

Definition get (key : string) (n : Node) : option string :=
  match n with
  | Tag _ attrs _ => lookup_attr key attrs
  | Str _ _ => None
  end.

(** A node followed by everything below it, in document order. *)
Fixpoint subtree (n : Node) : list Node :=
  n :: match n with
       | Tag _ _ contents => List.flat_map subtree contents
       | Str _ _ => []
       end.

(** [tag.descendants] *)
Definition descendants (n : Node) : list Node :=
  match n with
  | Tag _ _ contents => List.flat_map subtree contents
  | Str _ _ => []
  end.

Definition tag_matches (p : string -> list (string * string) -> bool)
    (n : Node) : bool :=
  match n with
  | Tag name attrs _ => p name attrs
  | Str _ _ => false
  end.

(** [tag.find_all(..)] and [tag.find(..)] over the descendants *)
Definition find_all (p : string -> list (string * string) -> bool)
    (n : Node) : list Node :=
  List.filter (tag_matches p) (descendants n).

Definition find (p : string -> list (string * string) -> bool)
    (n : Node) : option Node :=
  List.find (tag_matches p) (descendants n).

(** The criteria the source searches by. *)
Definition named (name : string) : string -> list (string * string) -> bool :=
  fun n _ => String.eqb n name.

Definition named_with (name key value : string)
  : string -> list (string * string) -> bool :=
  fun n attrs =>
    String.eqb n name &&
    match lookup_attr key attrs with
    | Some v => String.eqb v value
    | None => false
    end.

Definition attr_is (key value : string)
  : string -> list (string * string) -> bool :=
  fun _ attrs =>
    match lookup_attr key attrs with
    | Some v => String.eqb v value
    | None => false
    end.

(** [attrs={key: re.compile(value, re.I)}].  For [class], which bs4 keeps
    as a list of words, a pattern without whitespace is found in one of
    the words exactly when it is found in the text of the attribute. *)
Definition attr_search (key value : string)
  : string -> list (string * string) -> bool :=
  fun _ attrs =>
    match lookup_attr key attrs with
    | Some v => Re.isearch value v
    | None => false
    end.

(** [tag.string]: the only child when it is a string, or the [string] of
    the only child. *)
Fixpoint tag_string (n : Node) : option string :=
  match n with
  | Str _ s => Some s
  | Tag _ _ [child] => tag_string child
  | Tag _ _ _ => None
  end.

Definition interesting (name : string) : StrClass :=
  if String.eqb name "script" then ScriptText
  else if String.eqb name "style" then StyleText
  else if String.eqb name "template" then TemplateText
  else Plain.

Definition stripped_text (cls : StrClass) (n : Node) : string :=
  match n with
  | Str c s => if class_eqb c cls then Py.strip s else EmptyString
  | Tag _ _ _ => EmptyString
  end.

(** [tag.get_text(strip=True)]: the strings of the tag's class below it,
    each stripped, the empty ones dropped, joined without a separator. *)
Definition get_text_strip (n : Node) : string :=
  match n with
  | Tag name _ _ =>
      String.concat EmptyString
        (List.map (stripped_text (interesting name)) (descendants n))
  | Str _ s => Py.strip s
  end.

End Soup.

(** ** The value of [json.loads] *)

Module Json.

Inductive value :=
| Null
| Bool (b : bool)
| Int (z : Z)
| Float (f : float)
| Str (s : string)
| Arr (items : list value)
| Obj (fields : list (string * value)).

(** [d.get(key)]: [None] when the key is missing. *)
Fixpoint get (key : string) (fields : list (string * value)) : value :=
  match fields with
  | [] => Null
  | (k, v) :: rest => if String.eqb k key then v else get key rest
  end.

(** Python's truth test. *)
Definition truthy (v : value) : bool :=
  match v with
  | Null => false
  | Bool b => b
  | Int z => negb (z =? 0)
  | Float f => negb (f =? 0)%float
  | Str s => negb (Py.is_empty s)
  | Arr items => match items with [] => false | _ => true end
  | Obj fields => match fields with [] => false | _ => true end
  end.

(** [v == "JobPosting"] and ["JobPosting" in items] *)
Definition is_str (s : string) (v : value) : bool :=
  match v with
  | Str s' => String.eqb s' s
  | _ => false
  end.

(** [v.strip() if isinstance(v, str) else None] *)
Definition stripped_str (v : value) : option string :=
  match v with
  | Str s => Some (Py.strip s)
  | _ => None
  end.

End Json.

(** ** [extract_job_info_from_html]

    The argument [soup] is the parsed page and [url_hostname] the value of
    [urlparse(url).hostname]: [None] for a URL without a host (a [file:] or
    [data:] URL, or a bare word), else the host in lower case.  Every
    variable of the source that is assigned in turn is rebound in turn. *)

Module Cascade.

Import Soup.

(** The blocks the two scripts have in common, each as the new value of
    the variable it assigns. *)

(** [og:title] content, or else the text of [title]. *)
Definition title_text_of (soup : Node) : option string :=
  let og_title := find (named_with "meta" "property" "og:title") soup in
  let og_content := match og_title with
                    | Some t => get "content" t
                    | None => None
                    end in
  if Py.truthy og_content then option_map Py.strip og_content
  else
    match find (named "title") soup with
    | Some t =>
        if Py.truthy (tag_string t) then option_map Py.strip (tag_string t)
        else None
    | None => None
    end.

Definition from_h1 (soup : Node) (job_title : option string) : option string :=
  match find (named "h1") soup with
  | Some h1 =>
      if Py.is_empty (get_text_strip h1) then job_title
      else Some (get_text_strip h1)
  | None => job_title
  end.

(** The [for attr, value in ...] loops: the first selector whose first
    matching element has text. *)
Fixpoint from_selectors (selectors : list (string * string)) (soup : Node)
    (current : option string) : option string :=
  match selectors with
  | [] => current
  | (attr, value) :: rest =>
      match find (attr_search attr value) soup with
      | Some el =>
          if Py.is_empty (get_text_strip el)
          then from_selectors rest soup current
          else Some (get_text_strip el)
      | None => from_selectors rest soup current
      end
  end.

Definition possible_title_selectors : list (string * string) :=
  [("data-qa", "job-title"); ("class", "job-title");
   ("class", "posting-headline"); ("class", "job-header-title");
   ("class", "job-title-text")].

Definition possible_company_selectors : list (string * string) :=
  [("data-qa", "company-name"); ("class", "company-name");
   ("class", "posting-company"); ("class", "job-header-company")].

(** The [title] heuristics of the job title. *)
Definition title_prefix (title_text : string) : string :=
  let temp := title_text in
  let temp := if Py.contains " - " temp
              then Py.first (Py.split1 " - " temp) else temp in
  let temp := if Py.contains "|" temp
              then Py.first (Py.split1 "|" temp) else temp in
  Py.strip temp.

Definition from_og_site_name (soup : Node) (company : option string)
  : option string :=
  let og_site_name := find (named_with "meta" "property" "og:site_name") soup in
  let content := match og_site_name with
                 | Some t => get "content" t
                 | None => None
                 end in
  if Py.truthy content then option_map Py.strip content else company.

Definition from_hiring_organization (soup : Node) (company : option string)
  : option string :=
  match find (attr_is "itemprop" "hiringOrganization") soup with
  | Some org_el =>
      match find (attr_is "itemprop" "name") org_el with
      | Some name_el =>
          if Py.is_empty (get_text_strip name_el) then company
          else Some (get_text_strip name_el)
      | None => company
      end
  | None => company
  end.

(** The part after the last bar of the title, without the suffix words. *)
Definition from_after_bar (title_text : string) (company : option string)
  : option string :=
  let right_part := Py.strip (Py.last (Py.split "|" title_text)) in
  let right_part := Py.strip_chars " -|" (Re.sub_suffix_words right_part) in
  if Py.is_empty right_part then company else Some right_part.

(** The part after the first [" at "] of the title, up to a bar. *)
Definition from_at (title_text : string) (company : option string)
  : option string :=
  match Py.partition " at " title_text with
  | Some (_, after) =>
      let after := Py.first (Py.split "|" after) in
      let company_guess := Py.strip_chars " -|" after in
      if Py.is_empty company_guess then company else Some company_guess
  | None => company
  end.

(** The last resort: the company from the host. *)
Definition from_host (host : string) : string :=
  let host := Py.replace "www." "" host in
  let parts := Py.split "." host in
  let base :=
    if (2 <=? List.length parts)%nat then Py.second_last parts
    else match parts with
         | _ :: _ => Py.first parts
         | [] => "Unknown"
         end in
  Py.capitalize base.

End Cascade.

(** *** [Not_JoAps.py] *)

Module Not_JoAps.

Import Soup Cascade.

Definition extract_job_info_from_html (soup : Node)
    (url_hostname : option string) : string * string :=
  let title_text := title_text_of soup in
  (* Job title *)
  let job_title : option string := None in
  let job_title := from_h1 soup job_title in
  let job_title :=
    if negb (Py.truthy job_title)
    then from_selectors possible_title_selectors soup job_title
    else job_title in
  let job_title :=
    if negb (Py.truthy job_title) && Py.truthy title_text
    then option_map title_prefix title_text
    else job_title in
  (* Company *)
  let company : option string := None in
  let company := from_og_site_name soup company in
  let company :=
    if negb (Py.truthy company) then from_hiring_organization soup company
    else company in
  let company :=
    if negb (Py.truthy company)
    then from_selectors possible_company_selectors soup company
    else company in
  let company :=
    match title_text with
    | Some t =>
        if negb (Py.truthy company) && Py.truthy title_text && Py.contains "|" t
        then from_after_bar t company else company
    | None => company
    end in
  let company :=
    match title_text with
    | Some t =>
        if Py.truthy title_text && Py.contains " at " t && negb (Py.truthy company)
        then from_at t company else company
    | None => company
    end in
  let company :=
    Py.or_else company (from_host (Py.or_else url_hostname "")) in
  let job_title :=
    Py.or_else job_title ("Job from " ++ Py.or_else url_hostname "Unknown") in
  (job_title, company).

End Not_JoAps.

(** *** [Not_JoAps-WD.py] *)

Module Not_JoAps_WD.

Import Soup Cascade.

(** A call that returns or raises; every raise below is the
    [AttributeError] of [.get] on a value that is not a dictionary. *)
Inductive try (A : Type) := Returned (a : A) | Raised.
Arguments Returned {A} a.
Arguments Raised {A}.

(** [(obj.get("identifier") or {}).get("name")] *)
Definition identifier_name (fields : list (string * Json.value))
  : try Json.value :=
  let identifier := Json.get "identifier" fields in
  if Json.truthy identifier
  then match identifier with
       | Json.Obj inner => Returned (Json.get "name" inner)
       | _ => Raised
       end
  else Returned Json.Null.

Definition try_extract_jobposting_from_obj (obj : Json.value)
  : try (option (option string * option string)) :=
  match obj with
  | Json.Obj fields =>
      let t := Json.get "@type" fields in
      let is_job := match t with
                    | Json.Arr items => List.existsb (Json.is_str "JobPosting") items
                    | _ => Json.is_str "JobPosting" t
                    end in
      if negb is_job then Returned None
      else
        let title := Json.get "title" fields in
        match (if Json.truthy title then Returned title
               else identifier_name fields) with
        | Raised => Raised
        | Returned jt =>
            let org := Json.get "hiringOrganization" fields in
            let org := if Json.truthy org then org else Json.Obj [] in
            let comp := match org with
                        | Json.Obj inner => Json.get "name" inner
                        | _ => Json.Null
                        end in
            Returned (Some (Json.stripped_str jt, Json.stripped_str comp))
        end
  | _ => Returned None
  end.

(** [for item in data: candidate = ...; if candidate: break] *)
Fixpoint candidate_in (items : list Json.value)
  : try (option (option string * option string)) :=
  match items with
  | [] => Returned None
  | item :: rest =>
      match try_extract_jobposting_from_obj item with
      | Raised => Raised
      | Returned (Some c) => Returned (Some c)
      | Returned None => candidate_in rest
      end
  end.

Definition candidate_of (data : Json.value)
  : try (option (option string * option string)) :=
  match data with
  | Json.Arr items => candidate_in items
  | _ => try_extract_jobposting_from_obj data
  end.

(** [script.string or script.get_text(strip=True)] *)
Definition script_text (script : Node) : string :=
  Py.or_else (tag_string script) (get_text_strip script).

Section Extract.

(** [json.loads]; [None] when it raises. *)
Variable json_loads : string -> option Json.value.

(** The loop over the [application/ld+json] scripts, from
    [job_title = company = None]: the two variables when it ends. *)
Fixpoint scan_scripts (scripts : list Node)
  : try (option string * option string) :=
  match scripts with
  | [] => Returned (None, None)
  | script :: rest =>
      let text := script_text script in
      if Py.is_empty text then scan_scripts rest
      else
        match json_loads text with
        | None => scan_scripts rest
        | Some data =>
            match candidate_of data with
            | Raised => Raised
            | Returned None => scan_scripts rest
            | Returned (Some (jt, comp)) =>
                Returned (if Py.truthy jt then jt else None,
                          if Py.truthy comp then comp else None)
            end
        end
  end.

(** The [try: ... except Exception: pass] around that loop. *)
Definition json_ld (soup : Node) : option string * option string :=
  match scan_scripts
          (find_all (named_with "script" "type" "application/ld+json") soup) with
  | Returned r => r
  | Raised => (None, None)
  end.

(** The brand of a Workday host. *)
Definition workday_brand (hostname : string) (company : option string)
  : option string :=
  let host := Py.replace "www." "" hostname in
  let brand := Py.first (Py.split "." host) in
  if Py.is_empty brand then company
  else
    let brand := Py.replace "-" " " brand in
    let brand := Py.join " " (List.map Py.capitalize (Py.words brand)) in
    Some brand.

Definition extract_job_info_from_html (soup : Node)
    (url_hostname : option string) : string * string :=
  let hostname := Py.lower (Py.or_else url_hostname "") in
  let is_workday := Py.contains "myworkdayjobs.com" hostname in
  (* 1) JSON-LD JobPosting *)
  let '(job_title, company) := json_ld soup in
  (* 2) Workday host *)
  let company := if is_workday then workday_brand hostname company
                 else company in
  (* 3) Generic fallbacks *)
  let title_text := title_text_of soup in
  let job_title :=
    if negb (Py.truthy job_title) then from_h1 soup job_title
    else job_title in
  let job_title :=
    if negb (Py.truthy job_title)
    then from_selectors possible_title_selectors soup job_title
    else job_title in
  let job_title :=
    if negb (Py.truthy job_title) && Py.truthy title_text
    then option_map title_prefix title_text
    else job_title in
  let company :=
    if negb (Py.truthy company) then from_og_site_name soup company
    else company in
  let company :=
    if negb (Py.truthy company) then from_hiring_organization soup company
    else company in
  let company :=
    match title_text with
    | Some t =>
        if negb (Py.truthy company) && Py.truthy title_text && Py.contains "|" t
        then from_after_bar t company else company
    | None => company
    end in
  let company :=
    match title_text with
    | Some t =>
        if Py.truthy title_text && Py.contains " at " t && negb (Py.truthy company)
        then from_at t company else company
    | None => company
    end in
  let company := Py.or_else company (from_host hostname) in
  let job_title :=
    Py.or_else job_title ("Job from " ++ Py.or_else (Some hostname) "Unknown") in
  (job_title, company).

End Extract.

End Not_JoAps_WD.

(** ** Sample inputs *)

Module Samples.

Import Compressor.

(** Pillow as far as the loop sees it: [resize] refuses a target with a
    dimension below one pixel ([ValueError]); the sizes stand for an encoder
    that spends one byte on eight pixels, and a thousand on the PDF wrapper. *)
Definition pillow : Codec :=
  {| resize_ok := fun w h => (1 <=? w) && (1 <=? h);
     jpeg_bytes := fun w h => w * h / 8;
     pdf_bytes := fun w h => w * h / 8 + 1000 |}.

(** A capture directory that holds one screenshot. *)
Definition screenshot (width height : Z) : FS :=
  {[ "captures/job.png" := File Png width height (width * height) ]}.

(** Pages, as parsed. *)
Definition document (contents : list Soup.Node) : Soup.Node :=
  Soup.Tag "[document]" [] contents.

Definition blank_page : Soup.Node :=
  document [Soup.Tag "html" [] [Soup.Tag "head" [] []; Soup.Tag "body" [] []]].

(** The text of a JSON-LD block (its quotes left out) and what [json.loads]
    makes of it. *)
Definition ld_text : string :=
  "{@type: JobPosting, title: Data Engineer, hiringOrganization: {name: Other Inc}}".

Definition ld_value : Json.value :=
  Json.Obj [("@type", Json.Str "JobPosting");
            ("title", Json.Str "Data Engineer");
            ("hiringOrganization", Json.Obj [("name", Json.Str "Other Inc")])].

(** A second block, tagged as a job posting too, that has no title. *)
Definition ld_untitled_text : string :=
  "{@type: JobPosting, hiringOrganization: {name: Other Inc}}".

Definition ld_untitled_value : Json.value :=
  Json.Obj [("@type", Json.Str "JobPosting");
            ("hiringOrganization", Json.Obj [("name", Json.Str "Other Inc")])].

Definition loads (text : string) : option Json.value :=
  if String.eqb text ld_text then Some ld_value
  else if String.eqb text ld_untitled_text then Some ld_untitled_value
  else None.

(** A posting with a JobPosting block and a heading that says otherwise. *)
Definition posting_page : Soup.Node :=
  document
    [Soup.Tag "html" []
       [Soup.Tag "head" []
          [Soup.Tag "title" [] [Soup.Str Soup.Plain "Careers at Example"];
           Soup.Tag "script" [("type", "application/ld+json")]
             [Soup.Str Soup.ScriptText ld_text]];
        Soup.Tag "body" []
          [Soup.Tag "h1" [] [Soup.Str Soup.Plain "Staff Developer"]]]].

(** The same posting with the untitled block put first. *)
Definition two_block_page : Soup.Node :=
  document
    [Soup.Tag "html" []
       [Soup.Tag "head" []
          [Soup.Tag "title" [] [Soup.Str Soup.Plain "Careers at Example"];
           Soup.Tag "script" [("type", "application/ld+json")]
             [Soup.Str Soup.ScriptText ld_untitled_text];
           Soup.Tag "script" [("type", "application/ld+json")]
             [Soup.Str Soup.ScriptText ld_text]];
        Soup.Tag "body" []
          [Soup.Tag "h1" [] [Soup.Str Soup.Plain "Staff Developer"]]]].

(** A page that says who is hiring in its title only. *)
Definition careers_page : Soup.Node :=
  document
    [Soup.Tag "html" []
       [Soup.Tag "head" []
          [Soup.Tag "title" []
             [Soup.Str Soup.Plain "Senior Engineer at Acme | Careers"]];
        Soup.Tag "body" [] [Soup.Tag "p" [] [Soup.Str Soup.Plain "Apply now"]]]].

End Samples.

(** ** The rest of the two scripts: names, confirmation, cleanup

    The same text in [Not_JoAps.py] and [Not_JoAps-WD.py]. *)

Module Pipeline.

Import Compressor.

(** Every character of [s] passes the test [p]. *)
Definition all_chars (p : ascii -> bool) (s : string) : bool :=
  List.forallb p (list_ascii_of_string s).

(** The characters a file name made by [sanitize_for_filename] is free of:
    the removed class and whitespace. *)
Definition name_char (c : ascii) : bool :=
  negb (Re.forbidden c) && negb (Py.is_space c).

Definition is_alnum (c : ascii) : bool :=
  Py.is_upper c || Py.is_lower c || Py.is_digit c.

(** The characters of the URL part of a screenshot's name. *)
Definition url_char (c : ascii) : bool := is_alnum c || Ascii.eqb c "_".

(** [re.sub(r"[^a-zA-Z0-9]+", "_", url)]: every maximal run of other
    characters becomes one underscore. *)
Fixpoint sub_non_alnum (in_run : bool) (s : string) : string :=
  match s with
  | EmptyString => EmptyString
  | String c s' =>
      if is_alnum c then String c (sub_non_alnum false s')
      else if in_run then sub_non_alnum true s'
      else String "_" (sub_non_alnum true s')
  end.

(** [capture_fullpage_screenshot]: the part of the file name made from the
    URL. *)
Definition safe_url_part (url : string) : string :=
  Py.or_else (Some (Py.take 50 (sub_non_alnum false url))) "job".

(** [os.path.join(a, b)] on POSIX paths. *)
Definition path_join (a b : string) : string :=
  if String.prefix "/" b then b
  else if Py.is_empty a then b
  else if String.eqb (Py.drop (String.length a - 1) a) "/" then a ++ b
  else a ++ "/" ++ b.

(** The path of the screenshot; [timestamp] is the text of
    [datetime.now().strftime("%Y%m%d_%H%M%S")]. *)
Definition screenshot_path (out_dir url timestamp : string) : string :=
  path_join out_dir (safe_url_part url ++ "_" ++ timestamp ++ ".png").

(** [prompt_with_default]; [typed] is the line [input] returns. *)
Definition prompt_with_default (current typed : string) : string :=
  Py.or_else (Some (Py.strip typed)) current.

(** [main]: the name of the PDF; [today_str] is the text of
    [datetime.now().strftime("%Y-%m-%d")]. *)
Definition pdf_filename (today_str company job_title : string) : string :=
  let safe_company := sanitize_for_filename company in
  let safe_title := sanitize_for_filename job_title in
  today_str ++ "-" ++ safe_company ++ "-" ++ safe_title ++ ".pdf".

(** [try: m except Exception: ...] around a call whose value is not used. *)
Definition swallow {A : Type} (m : M A) : M unit := fun fs =>
  match m fs with
  | (_, fs') => (Ok tt, fs')
  end.

(** [if path and os.path.exists(path): try: os.remove(path) ...] *)
Definition remove_if_exists (path : option string) : M unit :=
  match path with
  | Some p =>
      if Py.is_empty p then mret tt
      else b ← exists_ p ; if b : bool then swallow (remove p) else mret tt
  | None => mret tt
  end.

(** The [finally] block of [main], as far as files go: the folder it
    removes afterwards is removed only when no file is left in it. *)
Definition cleanup (pdf_path png_path : option string) : M unit :=
  remove_if_exists pdf_path ;; remove_if_exists png_path.

(** The files at the end of [main], from the conversion on.  The steps
    between the conversion and the [finally] block (the size report and the
    calls to Notion) write no local file, and the block runs whether or not
    one of them, or the conversion itself, raises. *)
Definition main_files (codec : Codec) (png_path pdf_path : string)
    (max_bytes : Z) (fs : FS) : FS :=
  let '(_, fs1) :=
    compress_png_to_pdf_under_size codec png_path pdf_path max_bytes fs in
  (cleanup (Some pdf_path) (Some png_path) fs1).2.

End Pipeline.

(** ** [create_notion_page]: the properties of the page

    A Python dictionary is the list of its items in insertion order. *)

Module Notion.







End Notion.

(** ** What a JSON-LD block offers to the scan of [Not_JoAps-WD.py]

    The words the title claim is stated in, each read off the lines of
    [extract_job_info_from_html] it names. *)

Module Posting.

Import Soup.

(** An object tagged as a job posting (lines 153-161): a dictionary whose
    [@type] is ["JobPosting"] or a list that holds it. *)
Definition tagged (v : Json.value) : bool :=
  match v with
  | Json.Obj fields =>
      let t := Json.get "@type" fields in
      match t with
      | Json.Arr items => List.existsb (Json.is_str "JobPosting") items
      | _ => Json.is_str "JobPosting" t
      end
  | _ => false
  end.

(** The values of a block the scan looks at, in order (lines 184-190): the
    items of a top-level list, or else the value itself. *)
Definition offered (data : Json.value) : list Json.value :=
  match data with
  | Json.Arr items => items
  | _ => [data]
  end.

(** A script the scan passes over (lines 175-181 and 192): it has no text,
    or [json.loads] rejects the text, or no value it offers is tagged as a
    job posting. *)
Definition passed_over (json_loads : string -> option Json.value)
    (script : Node) : bool :=
  Py.is_empty (Not_JoAps_WD.script_text script) ||
  match json_loads (Not_JoAps_WD.script_text script) with
  | None => true
  | Some data => List.forallb (fun v => negb (tagged v)) (offered data)
  end.

End Posting.

(** ** A page with several JSON-LD blocks *)

Module Blocks.

Definition org_text : string := "{@type: Organization, name: Example}".

Definition org_value : Json.value :=
  Json.Obj [("@type", Json.Str "Organization"); ("name", Json.Str "Example")].

(** A list whose second item is tagged as a job posting among other types
    and names its title under [identifier]. *)
Definition graph_text : string :=
  "[{@type: WebSite}, {@type: [Thing, JobPosting], identifier: {name:  Platform Engineer }}]".

Definition graph_value : Json.value :=
  Json.Arr
    [Json.Obj [("@type", Json.Str "WebSite")];
     Json.Obj [("@type", Json.Arr [Json.Str "Thing"; Json.Str "JobPosting"]);
               ("identifier", Json.Obj [("name", Json.Str " Platform Engineer ")])]].

(** A block tagged as a job posting whose title is blank. *)
Definition blank_title_text : string := "{@type: JobPosting, title:   }".

Definition blank_title_value : Json.value :=
  Json.Obj [("@type", Json.Str "JobPosting"); ("title", Json.Str "  ")].

Definition loads (text : string) : option Json.value :=
  if String.eqb text org_text then Some org_value
  else if String.eqb text graph_text then Some graph_value
  else if String.eqb text blank_title_text then Some blank_title_value
  else None.

Definition ld_script (contents : list Soup.Node) : Soup.Node :=
  Soup.Tag "script" [("type", "application/ld+json")] contents.

(** An empty block, a block that is not JSON, a block about the
    organization, then the list; the heading says otherwise. *)
Definition graph_page : Soup.Node :=
  Samples.document
    [Soup.Tag "html" []
       [Soup.Tag "head" []
          [Soup.Tag "title" [] [Soup.Str Soup.Plain "Careers at Example"];
           ld_script [];
           ld_script [Soup.Str Soup.ScriptText "{not json"];
           ld_script [Soup.Str Soup.ScriptText org_text];
           ld_script [Soup.Str Soup.ScriptText graph_text]];
        Soup.Tag "body" []
          [Soup.Tag "h1" [] [Soup.Str Soup.Plain "Staff Developer"]]]].

(** A posting whose only block has a blank title. *)
Definition blank_title_page : Soup.Node :=
  Samples.document
    [Soup.Tag "html" []
       [Soup.Tag "head" []
          [ld_script [Soup.Str Soup.ScriptText blank_title_text]];
        Soup.Tag "body" []
          [Soup.Tag "h1" [] [Soup.Str Soup.Plain "Staff Developer"]]]].

End Blocks.

(** ** A page whose first job posting gives its identifier as plain text *)

Module Requisition.

(** A block tagged as a job posting that has no title and whose
    [identifier] is a string, not a dictionary. *)
Definition coded_text : string :=
  "{@type: JobPosting, identifier: REQ-1024, hiringOrganization: {name: Other Inc}}".

Definition coded_value : Json.value :=
  Json.Obj [("@type", Json.Str "JobPosting");
            ("identifier", Json.Str "REQ-1024");
            ("hiringOrganization", Json.Obj [("name", Json.Str "Other Inc")])].

Definition loads (text : string) : option Json.value :=
  if String.eqb text coded_text then Some coded_value else Samples.loads text.

(** That block, then the well-formed block of [Samples.posting_page]. *)
Definition coded_page : Soup.Node :=
  Samples.document
    [Soup.Tag "html" []
       [Soup.Tag "head" []
          [Soup.Tag "title" [] [Soup.Str Soup.Plain "Careers at Example"];
           Soup.Tag "script" [("type", "application/ld+json")]
             [Soup.Str Soup.ScriptText coded_text];
           Soup.Tag "script" [("type", "application/ld+json")]
             [Soup.Str Soup.ScriptText Samples.ld_text]];
        Soup.Tag "body" []
          [Soup.Tag "h1" [] [Soup.Str Soup.Plain "Staff Developer"]]]].

End Requisition.

(** The characters of a job title made from the title of the page: any but
    the bar. *)
Definition no_bar (c : ascii) : bool := negb (Ascii.eqb c "|").

(** * Facts about [sanitize_for_filename] *)

(** C6 (as the code has it): on ["C++ Dev / Team: A<B>"] the plus signs stay,
    since [+] is not in the removed class, and the two spaces left around the
    removed slash become two underscores. *)
Theorem sanitize_for_filename_example :
  sanitize_for_filename "C++ Dev / Team: A<B>" = "C++_Dev__Team_AB".
Proof. vm_compute. reflexivity. Qed.

(** C6 (as stated) fails: the result is not ["C_Dev_Team_AB"]. *)
Lemma sanitize_for_filename_example_not_spec :
  sanitize_for_filename "C++ Dev / Team: A<B>" <> "C_Dev_Team_AB".
Proof. vm_compute. discriminate. Qed.

(** * Facts about the compressor *)

Section CompressorFacts.

Import Compressor.

Variable codec : Codec.
Variables (width height : Z) (pdf_path temp_jpeg tmp_pdf : string).
Variable max_bytes : Z.

Local Abbreviation the_attempts :=
  (attempts codec width height pdf_path temp_jpeg tmp_pdf max_bytes).
Local Abbreviation the_finish := (finish pdf_path temp_jpeg tmp_pdf).
Local Abbreviation the_plan := (plan codec width height max_bytes).

Lemma finish_run (e : Exit) (log : list Attempt) (fs : FS) (f : file) :
  fs !! tmp_pdf = Some f ->
  the_finish e log fs =
    (Ok {| ret_path := pdf_path; ret_exit := e; ret_attempts := log |},
     delete temp_jpeg (<[pdf_path := f]> (delete tmp_pdf fs))).
Proof.
  intros Hf. unfold finish, mbind, M_bind, mret, M_ret, move, exists_, remove.
  rewrite Hf. case_bool_decide as Hj.
  - destruct Hj as [j Hj]. rewrite Hj. reflexivity.
  - rewrite (delete_id _ temp_jpeg); [reflexivity|].
    destruct (_ !! temp_jpeg) eqn:E; [|reflexivity]. exfalso; eauto.
Qed.

Lemma attempts_step (n : nat) (scale : float) (log : list Attempt) (fs : FS) :
  the_attempts (S n) scale log fs =
    let w := target_w width scale in
    let h := target_h height scale in
    if resize_ok codec w h then
      let fs1 := <[tmp_pdf := File Pdf w h (pdf_bytes codec w h)]>
                   (<[temp_jpeg := File Jpeg w h (jpeg_bytes codec w h)]> fs) in
      let log' := (log ++ [attempt_at codec width height scale])%list in
      if accepts max_bytes scale (pdf_bytes codec w h)
      then the_finish InLoop log' fs1
      else the_attempts n (scale * 0.8)%float log' fs1
    else (Raise ValueError, fs).
Proof.
  cbn [attempts]. unfold mbind, M_bind, mret, M_ret, raise, write, image_open, getsize.
  cbv zeta.
  destruct (resize_ok codec _ _); [|reflexivity].
  rewrite lookup_insert_eq. cbn [f_kind f_width f_height].
  rewrite lookup_insert_eq. cbn [f_bytes].
  destruct (accepts _ _ _); reflexivity.
Qed.

Lemma last_file_cons (a : Attempt) (l : list Attempt) (f0 : file) :
  last_file (a :: l) f0 = last_file l (File Pdf (att_w a) (att_h a) (att_size a)).
Proof. unfold last_file. rewrite last_cons. destruct (last l); reflexivity. Qed.

(** The loop does what [plan] says.  [fs1] is the file system when the
    loop is left: the one before the final move, or the one at the raise. *)
Lemma attempts_plan (n : nat) :
  forall (scale : float) (log : list Attempt) (fs : FS) (f0 : file),
    (n = 0%nat -> fs !! tmp_pdf = Some f0) ->
    exists fs1 : FS,
      (forall p, p <> temp_jpeg -> p <> tmp_pdf -> fs1 !! p = fs !! p) /\
      ((the_plan n scale).1 = [] -> fs1 = fs) /\
      ((the_plan n scale).1 <> [] ->
         fs1 !! tmp_pdf = Some (last_file (the_plan n scale).1 f0)) /\
      the_attempts n scale log fs =
        match (the_plan n scale).2 with
        | Refused => (Raise ValueError, fs1)
        | o =>
            (Ok {| ret_path := pdf_path; ret_exit := exit_of o;
                   ret_attempts := log ++ (the_plan n scale).1 |},
             delete temp_jpeg
               (<[pdf_path := last_file (the_plan n scale).1 f0]>
                  (delete tmp_pdf fs1)))
        end.
Proof.
  induction n as [|n IH]; intros scale log fs f0 H0.
  - exists fs. cbn [plan fst snd attempts]. rewrite app_nil_r.
    repeat split; [done|]. apply finish_run. auto.
  - rewrite attempts_step. cbn [plan]. cbv zeta.
    destruct (resize_ok codec _ _) eqn:Hr.
    2:{ exists fs. cbn [fst snd]. repeat split; done. }
    set (pdf := File Pdf _ _ _). set (jpg := File Jpeg _ _ _).
    set (a := attempt_at codec width height scale).
    assert (Hframe : forall p, p <> temp_jpeg -> p <> tmp_pdf ->
              <[tmp_pdf := pdf]> (<[temp_jpeg := jpg]> fs) !! p = fs !! p).
    { intros p H1 H2. rewrite !lookup_insert_ne by done. done. }
    change (att_size a) with (pdf_bytes codec (target_w width scale) (target_h height scale)).
    destruct (accepts _ _ _) eqn:Ha.
    + exists (<[tmp_pdf := pdf]> (<[temp_jpeg := jpg]> fs)). cbn [fst snd].
      split; [exact Hframe|]. split; [done|]. split.
      * intros _. apply lookup_insert_eq.
      * apply finish_run. apply lookup_insert_eq.
    + destruct (IH (scale * 0.8)%float (log ++ [a])%list
                  (<[tmp_pdf := pdf]> (<[temp_jpeg := jpg]> fs)) pdf)
        as (fs1 & Hfr & Hnil & Hlast & Hrun).
      { intros _. apply lookup_insert_eq. }
      destruct (the_plan n (scale * 0.8)%float) as [l o] eqn:Hp. cbn [fst snd] in *.
      exists fs1. split.
      { intros p H1 H2. rewrite Hfr by done. apply Hframe; done. }
      split; [done|].
      assert (Hl : fs1 !! tmp_pdf = Some (last_file (a :: l) f0)).
      { rewrite last_file_cons. destruct l as [|b l].
        - rewrite Hnil by done. apply lookup_insert_eq.
        - apply Hlast. done. }
      split; [intros _; exact Hl|].
      rewrite Hrun, last_file_cons, <- app_assoc. reflexivity.
Qed.

(** *** What [plan] lists *)

Ltac plan_step IH scale :=
  cbn [plan]; cbv zeta;
  destruct (resize_ok codec _ _) eqn:?;
  [ destruct (accepts _ _ _) eqn:?;
    [ | pose proof (IH (scale * 0.8)%float) as IH;
        destruct (plan codec width height max_bytes _ (scale * 0.8)%float)
          as [l o] eqn:? ]
  | ];
  cbn [fst snd length] in *.

Lemma plan_length (n : nat) :
  forall scale, (length (the_plan n scale).1 <= n)%nat.
Proof.
  induction n as [|n IH]; intros scale; [cbn; lia|].
  plan_step IH scale; lia.
Qed.

Lemma plan_lookup (n : nat) :
  forall scale i a,
    (the_plan n scale).1 !! i = Some a ->
    a = attempt_at codec width height (scale_from scale i).
Proof.
  induction n as [|n IH]; intros scale i a; [cbn; intros H; inversion H|].
  plan_step IH scale; intros H.
  - destruct i as [|i]; inversion H. reflexivity.
  - destruct i as [|i]; [inversion H; reflexivity|]. cbn in H. cbn [scale_from]. eauto.
  - inversion H.
Qed.




(** Once a scale of the sequence is at most 0.4 the loop has stopped. *)
Lemma plan_floor (k : nat) :
  forall n scale,
    (scale_from scale k <=? 0.4)%float = true ->
    (k < n)%nat ->
    (length (the_plan n scale).1 <= S k)%nat /\ (the_plan n scale).2 <> Exhausted.
Proof.
  induction k as [|k IHk]; intros n scale Hs Hk.
  - destruct n as [|n]; [lia|]. cbn [scale_from] in Hs.
    cbn [plan]. cbv zeta. unfold accepts. rewrite Hs, orb_true_r.
    destruct (resize_ok codec _ _); cbn; split; (lia || discriminate).
  - destruct n as [|n]; [lia|]. cbn [scale_from] in Hs.
    assert (Hn : (k < n)%nat) by lia.
    pose proof (IHk n (scale * 0.8)%float Hs Hn) as IH. clear IHk.
    cbn [plan]. cbv zeta.
    destruct (resize_ok codec _ _); [|cbn; split; (lia || discriminate)].
    destruct (accepts _ _ _); [cbn; split; (lia || discriminate)|].
    destruct (plan codec width height max_bytes n (scale * 0.8)%float) as [l o].
    cbn [fst snd length] in *. destruct IH. split; [lia|assumption].
Qed.

Lemma plan_not_refused (n : nat) :
  forall scale,
    (forall i, (i < n)%nat ->
       resize_ok codec (target_w width (scale_from scale i))
                       (target_h height (scale_from scale i)) = true) ->
    (the_plan n scale).2 <> Refused.
Proof.
  induction n as [|n IH]; intros scale Hok; [cbn; discriminate|].
  cbn [plan]. cbv zeta. pose proof (Hok 0%nat ltac:(lia)) as H0. cbn [scale_from] in H0.
  rewrite H0.
  destruct (accepts _ _ _); [cbn; discriminate|].
  specialize (IH (scale * 0.8)%float).
  destruct (plan codec width height max_bytes n (scale * 0.8)%float) as [l o].
  apply IH. intros i Hi. apply (Hok (S i)). lia.
Qed.


End CompressorFacts.

Lemma string_length_app (a b : string) :
  String.length (a ++ b) = (String.length a + String.length b)%nat.
Proof. induction a as [|c a IH]; simpl; [reflexivity|]. f_equal. exact IH. Qed.

Lemma tmp_pdf_fresh (pdf_path : string) : pdf_path ++ ".tmp" <> pdf_path.
Proof.
  intros H. apply (f_equal String.length) in H.
  rewrite string_length_app in H. cbn in H. lia.
Qed.

(** The whole call, read off [plan]. *)
Lemma compress_run (codec : Compressor.Codec) (png_path pdf_path : string)
    (max_bytes : Z) (fs : Compressor.FS) (f : Compressor.file) :
  fs !! png_path = Some f ->
  Compressor.f_kind f <> Compressor.Pdf ->
  let temp_jpeg := Py.replace ".png" "_tmp.jpg" png_path in
  let tmp_pdf := pdf_path ++ ".tmp" in
  let pl := Compressor.plan codec (Compressor.f_width f) (Compressor.f_height f)
              max_bytes 7 1%float in
  exists fs1 : Compressor.FS,
    (forall p, p <> temp_jpeg -> p <> tmp_pdf -> fs1 !! p = fs !! p) /\
    (pl.1 <> [] -> fs1 !! tmp_pdf = Some (Compressor.last_file pl.1 f)) /\
    Compressor.compress_png_to_pdf_under_size codec png_path pdf_path max_bytes fs =
      match pl.2 with
      | Compressor.Refused => (Compressor.Raise Compressor.ValueError, fs1)
      | o =>
          (Compressor.Ok
             {| Compressor.ret_path := pdf_path;
                Compressor.ret_exit := Compressor.exit_of o;
                Compressor.ret_attempts := pl.1 |},
           delete temp_jpeg
             (<[pdf_path := Compressor.last_file pl.1 f]> (delete tmp_pdf fs1)))
      end.
Proof.
  intros Hf Hk temp_jpeg tmp_pdf pl.
  destruct (attempts_plan codec (Compressor.f_width f) (Compressor.f_height f)
              pdf_path temp_jpeg tmp_pdf max_bytes 7 1%float [] fs f)
    as (fs1 & Hfr & _ & Hlast & Hrun); [discriminate|].
  exists fs1. split; [exact Hfr|]. split; [exact Hlast|].
  unfold Compressor.compress_png_to_pdf_under_size, mbind, Compressor.M_bind,
    Compressor.image_open.
  rewrite Hf. destruct (Compressor.f_kind f); [| |congruence]; exact Hrun.
Qed.

(** The sixth scale of the sequence is below the floor, the fifth is not. *)
Lemma sixth_scale_at_floor :
  (Compressor.scale_from 1 5 <=? 0.4)%float = true /\
  (Compressor.scale_from 1 4 <=? 0.4)%float = false.
Proof. split; vm_compute; reflexivity. Qed.

Lemma scales_decrease (i : nat) :
  (i < 6)%nat ->
  (Compressor.scale_from 1 (S i) <? Compressor.scale_from 1 i)%float = true.
Proof.
  intros Hi. do 6 (destruct i as [|i]; [vm_compute; reflexivity|]). lia.
Qed.

(** A call that returns has opened the screenshot. *)
Lemma compress_returns_inv (codec : Compressor.Codec) (png_path pdf_path : string)
    (max_bytes : Z) (fs fs' : Compressor.FS) (r : Compressor.Return) :
  Compressor.compress_png_to_pdf_under_size codec png_path pdf_path max_bytes fs
    = (Compressor.Ok r, fs') ->
  exists f, fs !! png_path = Some f /\ Compressor.f_kind f <> Compressor.Pdf.
Proof.
  unfold Compressor.compress_png_to_pdf_under_size, mbind, Compressor.M_bind,
    Compressor.image_open.
  destruct (fs !! png_path) as [f|]; [|discriminate].
  destruct (Compressor.f_kind f) eqn:Hk; try discriminate;
    intros _; exists f; split; congruence.
Qed.

(** * Claims about the compressor *)

Import Compressor.

(** C10.  Whenever the call returns, it returned from inside the loop, after
    at most six attempts: at the sixth attempt the scale is below 0.4, so
    the test accepts any size, and the fallback after the loop is never
    reached. *)
Theorem compress_fallback_unreachable
    (codec : Codec) (png_path pdf_path : string) (max_bytes : Z)
    (fs fs' : FS) (r : Return) :
  compress_png_to_pdf_under_size codec png_path pdf_path max_bytes fs = (Ok r, fs') ->
  ret_exit r = InLoop /\
  (length (ret_attempts r) <= 6)%nat /\
  (forall size, accepts max_bytes (scale_from 1 5) size = true).
Proof.
  intros Hrun.
  assert (Hfloor : forall size, accepts max_bytes (scale_from 1 5) size = true).
  { intros size. unfold accepts. rewrite (proj1 sixth_scale_at_floor).
    apply orb_true_r. }
  destruct (compress_returns_inv _ _ _ _ _ _ _ Hrun) as (f & Hf & Hk).
  destruct (compress_run codec png_path pdf_path max_bytes fs f Hf Hk)
    as (fs1 & _ & _ & Heq).
  rewrite Hrun in Heq.
  destruct (plan_floor codec (f_width f) (f_height f) max_bytes 5 7 1%float
              (proj1 sixth_scale_at_floor) ltac:(lia)) as [Hlen Hex].
  destruct (plan codec (f_width f) (f_height f) max_bytes 7 1) as [l o].
  cbn [fst snd] in *.
  destruct o; [|congruence|discriminate].
  inversion Heq; subst. cbn. auto.
Qed.

Lemma compress_fallback_unreachable_witness :
  exists r fs',
    compress_png_to_pdf_under_size Samples.pillow "captures/job.png" "out.pdf"
      1000 (Samples.screenshot 1280 2000) = (Ok r, fs') /\
    ret_exit r = InLoop /\ (length (ret_attempts r) <= 6)%nat.
Proof.
  eexists _, _. split; [vm_compute; reflexivity|].
  pose proof (compress_fallback_unreachable Samples.pillow "captures/job.png"
                "out.pdf" 1000 (Samples.screenshot 1280 2000)) as H.
  edestruct H as (H1 & H2 & _); [vm_compute; reflexivity|].
  split; [exact H1|exact H2].
Defined.



(** C5 (as the code has it).  On every attempt the target width is
    [max(800, int(width * scale))], with [int] cutting towards zero, and the
    target height is [int(height * scale)], taken from the scale alone; the
    width is never below 800. *)
Theorem compress_targets
    (codec : Codec) (png_path pdf_path : string) (max_bytes : Z)
    (fs fs' : FS) (r : Return) (f : file) :
  compress_png_to_pdf_under_size codec png_path pdf_path max_bytes fs = (Ok r, fs') ->
  fs !! png_path = Some f ->
  forall i a, ret_attempts r !! i = Some a ->
    att_scale a = scale_from 1 i /\
    att_w a = Z.max 800 (int_of_float (float_of_Z (f_width f) * att_scale a)) /\
    att_h a = int_of_float (float_of_Z (f_height f) * att_scale a) /\
    800 <= att_w a.
Proof.
  intros Hrun Hf i a Hi.
  destruct (compress_returns_inv _ _ _ _ _ _ _ Hrun) as (f' & Hf' & Hk).
  assert (f' = f) by congruence. subst f'.
  destruct (compress_run codec png_path pdf_path max_bytes fs f Hf Hk)
    as (fs1 & _ & _ & Heq).
  rewrite Hrun in Heq.
  pose proof (plan_lookup codec (f_width f) (f_height f) max_bytes 7 1%float i a) as Hlk.
  destruct (plan codec (f_width f) (f_height f) max_bytes 7 1) as [l o].
  cbn [fst snd] in *.
  assert (Hl : ret_attempts r = l).
  { destruct o; inversion Heq; reflexivity. }
  rewrite Hl in Hi. rewrite (Hlk Hi). cbn [attempt_at att_scale att_w att_h].
  unfold target_w, target_h, min_width.
  repeat split; try reflexivity. apply Z.le_max_l.
Qed.

Lemma compress_targets_witness :
  exists r fs' a,
    compress_png_to_pdf_under_size Samples.pillow "captures/job.png" "out.pdf"
      1000 (Samples.screenshot 1001 2000) = (Ok r, fs') /\
    ret_attempts r !! 2%nat = Some a /\
    att_w a = 800 /\ att_h a = 1280.
Proof.
  eexists _, _, _. split; [vm_compute; reflexivity|].
  split; [vm_compute; reflexivity|].
  edestruct compress_targets
    with (codec := Samples.pillow) (png_path := "captures/job.png")
         (pdf_path := "out.pdf") (max_bytes := 1000)
         (fs := Samples.screenshot 1001 2000) (i := 2%nat)
    as (_ & Hw & Hh & _).
  - vm_compute. reflexivity.
  - vm_compute. reflexivity.
  - vm_compute. reflexivity.
  - split; [rewrite Hw|rewrite Hh]; vm_compute; reflexivity.
Defined.

(** C5 (as stated) fails on a 1001 x 2000 screenshot.  At the second
    attempt (scale 0.8) the width is [int(800.8) = 800] where the rounded
    formula gives 801; at the third (scale 0.64) the width is held at 800
    while the height goes on to 1280, so the 1001 : 2000 proportion is lost. *)
Lemma compress_targets_not_spec :
  exists r fs' a b,
    compress_png_to_pdf_under_size Samples.pillow "captures/job.png" "out.pdf"
      1000 (Samples.screenshot 1001 2000) = (Ok r, fs') /\
    ret_attempts r !! 1%nat = Some a /\
    att_w a = 800 /\ spec_target_w 1001 (att_scale a) = 801 /\
    ret_attempts r !! 2%nat = Some b /\
    att_w b = 800 /\ att_h b = 1280 /\
    proportional 1001 2000 (att_w b) (att_h b) = false.
Proof.
  eexists _, _, _, _. split; [vm_compute; reflexivity|].
  split; [vm_compute; reflexivity|].
  split; [vm_compute; reflexivity|].
  split; [vm_compute; reflexivity|].
  split; [vm_compute; reflexivity|].
  repeat split; vm_compute; reflexivity.
Qed.




(** The half of C8 that is about the loop.  With the screenshot on disk
    and Pillow accepting the targets, the call returns after at most seven
    attempts; the scale goes down from each attempt to the next, and the
    size of an attempt is what the encoder gives for its target.  How the
    sizes of two attempts compare is up to the encoder: the loop does not
    look at it. *)
Theorem compress_terminates
    (codec : Codec) (png_path pdf_path : string) (max_bytes : Z)
    (fs : FS) (f : file) :
  fs !! png_path = Some f ->
  f_kind f <> Pdf ->
  (forall i, (i < 7)%nat ->
     resize_ok codec (target_w (f_width f) (scale_from 1 i))
                     (target_h (f_height f) (scale_from 1 i)) = true) ->
  exists r fs',
    compress_png_to_pdf_under_size codec png_path pdf_path max_bytes fs = (Ok r, fs') /\
    (length (ret_attempts r) <= 7)%nat /\
    (forall i a, ret_attempts r !! i = Some a ->
       att_size a = pdf_bytes codec (att_w a) (att_h a)) /\
    (forall i a b, ret_attempts r !! i = Some a -> ret_attempts r !! S i = Some b ->
       (att_scale b <? att_scale a)%float = true).
Proof.
  intros Hf Hk Hok.
  destruct (compress_run codec png_path pdf_path max_bytes fs f Hf Hk)
    as (fs1 & _ & _ & Heq).
  pose proof (plan_not_refused codec (f_width f) (f_height f) max_bytes 7 1%float Hok) as Hnr.
  pose proof (plan_length codec (f_width f) (f_height f) max_bytes 7 1%float) as Hlen.
  pose proof (plan_lookup codec (f_width f) (f_height f) max_bytes 7 1%float) as Hlk.
  destruct (plan codec (f_width f) (f_height f) max_bytes 7 1) as [l o].
  cbn [fst snd] in *.
  eexists _, _. split.
  { rewrite Heq. destruct o; [reflexivity|reflexivity|contradiction]. }
  cbn [ret_attempts]. split; [exact Hlen|]. split.
  { intros i a Hi. rewrite (Hlk i a Hi). reflexivity. }
  intros i a b Ha Hb.
  rewrite (Hlk _ _ Ha), (Hlk _ _ Hb). cbn [attempt_at att_scale].
  apply scales_decrease.
  apply lookup_lt_Some in Hb. lia.
Qed.

Lemma compress_terminates_witness :
  exists r fs',
    compress_png_to_pdf_under_size Samples.pillow "captures/job.png" "out.pdf"
      100000 (Samples.screenshot 1280 2000) = (Ok r, fs') /\
    (length (ret_attempts r) <= 7)%nat.
Proof.
  edestruct (compress_terminates Samples.pillow "captures/job.png" "out.pdf"
               100000 (Samples.screenshot 1280 2000))
    as (r & fs' & Hrun & Hl & _).
  - vm_compute. reflexivity.
  - discriminate.
  - intros i Hi. do 7 (destruct i as [|i]; [vm_compute; reflexivity|]). lia.
  - exists r, fs'. split; [exact Hrun|exact Hl].
Defined.

(** * Claims about the extractor *)

Import Soup Cascade.

Lemma or_else_nonempty (o : option string) (d : string) :
  d <> "" -> Py.or_else o d <> "".
Proof. intros Hd. destruct o as [[|c s]|]; cbn; (exact Hd || discriminate). Qed.

(** The title is never empty, in either script. *)
Lemma extract_title_nonempty (json_loads : string -> option Json.value)
    (soup : Node) (url_hostname : option string) :
  fst (Not_JoAps.extract_job_info_from_html soup url_hostname) <> "" /\
  fst (Not_JoAps_WD.extract_job_info_from_html json_loads soup url_hostname) <> "".
Proof.
  split.
  - unfold Not_JoAps.extract_job_info_from_html. cbv zeta. cbn [fst].
    apply or_else_nonempty. discriminate.
  - unfold Not_JoAps_WD.extract_job_info_from_html. cbv zeta.
    destruct (Not_JoAps_WD.json_ld json_loads soup) as [jt comp]. cbn [fst].
    apply or_else_nonempty. discriminate.
Qed.

(** The model on two inputs of the specification's own examples. *)
Example title_placeholder_example :
  Not_JoAps.extract_job_info_from_html Samples.blank_page (Some "jobs.example.com")
    = ("Job from jobs.example.com", "Example").
Proof. vm_compute. reflexivity. Qed.

Example title_prefix_example : title_prefix "Senior Engineer - Acme Inc" = "Senior Engineer".
Proof. vm_compute. reflexivity. Qed.

(** C1.  The code at a URL without a host (a [file:] URL) and a page
    without any company signal: the title is the placeholder, the company is
    the empty string.  [parts] is [[""]], of length one, so [base] is its
    first element and the ["Unknown"] branch is not taken. *)
Theorem extract_company_empty_without_host :
  Not_JoAps.extract_job_info_from_html Samples.blank_page None
    = ("Job from Unknown", "") /\
  Not_JoAps_WD.extract_job_info_from_html Samples.loads Samples.blank_page None
    = ("Job from Unknown", "") /\
  Py.split "." "" = [""].
Proof. repeat split; vm_compute; reflexivity. Qed.

(** On a Workday host whose first label, once [www.] is taken out, is
    [acme-corp], the brand overwrites the company of the JSON-LD block, and
    no later step runs on a company that is set. *)
Lemma wd_company_of_brand
    (json_loads : string -> option Json.value) (soup : Node) (host : string) :
  Py.contains "myworkdayjobs.com" (Py.lower host) = true ->
  Py.first (Py.split "." (Py.replace "www." "" (Py.lower host))) = "acme-corp" ->
  snd (Not_JoAps_WD.extract_job_info_from_html json_loads soup (Some host))
    = "Acme Corp".
Proof.
  intros Hwd Hbrand.
  assert (Hhost : Py.or_else (Some host) "" = host) by (destruct host; reflexivity).
  unfold Not_JoAps_WD.extract_job_info_from_html. cbv zeta.
  rewrite Hhost, Hwd.
  destruct (Not_JoAps_WD.json_ld json_loads soup) as [jt comp].
  unfold Not_JoAps_WD.workday_brand. cbv zeta. rewrite Hbrand.
  change (Py.is_empty "acme-corp") with false. cbv iota.
  change (Py.join " " (List.map Py.capitalize (Py.words (Py.replace "-" " " "acme-corp"))))
    with "Acme Corp".
  cbn [snd Py.truthy negb andb].
  destruct (title_text_of soup) as [t|]; rewrite ?andb_false_r; reflexivity.
Qed.

(** The first label of a host. *)
Lemma first_label (s : string) :
  exists rest,
    s = Py.first (Py.split "." s) ++ rest /\
    (rest = "" \/ exists r, rest = String "." r).
Proof.
  induction s as [|c s IH].
  - exists "". split; [reflexivity|left; reflexivity].
  - unfold Py.split in *. cbn [Py.split_from].
    destruct (String.prefix "." (String c s)) eqn:Hp.
    + exists (String c s). cbn. split; [reflexivity|]. right.
      unfold String.prefix in Hp. destruct (ascii_dec "." c) as [<-|]; [eauto|discriminate].
    + cbn [String.length Nat.sub] in *.
      destruct IH as (rest & Heq & Hrest).
      destruct (Py.split_from "." 0 s) as [|p ps]; cbn [Py.first hd] in *.
      * exists rest. cbn in Heq. subst s. split; [reflexivity|exact Hrest].
      * exists rest. split; [|exact Hrest].
        change (String c s = String c (p ++ rest)). f_equal. exact Heq.
Qed.

(** C4.  On a host that contains [myworkdayjobs.com] and whose first label
    is [acme-corp], the company is ["Acme Corp"], whatever the page holds,
    the hiring organization of a JSON-LD block included: taking [www.] out
    leaves the first label as it is, its hyphen becomes a space and both
    words are capitalized. *)
Theorem wd_company_from_workday_host
    (json_loads : string -> option Json.value) (soup : Node) (host : string) :
  Py.contains "myworkdayjobs.com" (Py.lower host) = true ->
  Py.first (Py.split "." (Py.lower host)) = "acme-corp" ->
  snd (Not_JoAps_WD.extract_job_info_from_html json_loads soup (Some host))
    = "Acme Corp".
Proof.
  intros Hwd Hfirst. apply wd_company_of_brand; [exact Hwd|].
  destruct (first_label (Py.lower host)) as (rest & Heq & Hrest).
  rewrite Hfirst in Heq. rewrite Heq.
  destruct Hrest as [->|[r ->]]; [vm_compute; reflexivity|].
  assert (Hnil : forall x, String.prefix "" x = true) by (intros [|? ?]; reflexivity).
  unfold Py.replace, Py.split. simpl. rewrite Hnil. reflexivity.
Qed.

Lemma wd_company_from_workday_host_witness :
  snd (Not_JoAps_WD.json_ld Samples.loads Samples.posting_page) = Some "Other Inc" /\
  snd (Not_JoAps_WD.extract_job_info_from_html Samples.loads Samples.posting_page
         (Some "acme-corp.wd5.myworkdayjobs.com")) = "Acme Corp".
Proof.
  split; [vm_compute; reflexivity|].
  apply wd_company_from_workday_host; vm_compute; reflexivity.
Defined.

(** The two title steps of the company on the title of C9. *)
Lemma after_bar_of_careers_title (company : option string) :
  from_after_bar "Senior Engineer at Acme | Careers" company = company.
Proof. reflexivity. Qed.

Lemma at_of_careers_title (company : option string) :
  from_at "Senior Engineer at Acme | Careers" company = Some "Acme".
Proof. reflexivity. Qed.

(** C9.  When the title of the page is ["Senior Engineer at Acme | Careers"]
    and no step before the title steps sets the company, the company is
    ["Acme"] in both scripts: the part after the last bar is ["Careers"],
    which the suffix words take away whole, and the part after [" at "], cut
    at the bar and stripped, is ["Acme"]. *)
Theorem company_from_at_pattern
    (json_loads : string -> option Json.value) (soup : Node)
    (url_hostname : option string) :
  title_text_of soup = Some "Senior Engineer at Acme | Careers" ->
  (* no Workday host, no JSON-LD company *)
  Py.contains "myworkdayjobs.com" (Py.lower (Py.or_else url_hostname "")) = false ->
  Py.truthy (snd (Not_JoAps_WD.json_ld json_loads soup)) = false ->
  (* no site name, no hiring organization, no company container *)
  (forall c, Py.truthy c = false -> Py.truthy (from_og_site_name soup c) = false) ->
  (forall c, Py.truthy c = false -> Py.truthy (from_hiring_organization soup c) = false) ->
  (forall c, Py.truthy c = false ->
     Py.truthy (from_selectors possible_company_selectors soup c) = false) ->
  snd (Not_JoAps.extract_job_info_from_html soup url_hostname) = "Acme" /\
  snd (Not_JoAps_WD.extract_job_info_from_html json_loads soup url_hostname) = "Acme".
Proof.
  intros Htitle Hwd Hld Hog Horg Hsel. split.
  - unfold Not_JoAps.extract_job_info_from_html. cbv zeta. cbn [snd].
    rewrite Htitle.
    pose proof (Hog None eq_refl) as H1. rewrite H1. cbn [negb].
    pose proof (Horg _ H1) as H2. rewrite H2. cbn [negb].
    pose proof (Hsel _ H2) as H3. rewrite H3. cbn [negb].
    change (Py.contains "|" "Senior Engineer at Acme | Careers") with true.
    change (Py.contains " at " "Senior Engineer at Acme | Careers") with true.
    cbn [Py.truthy andb]. rewrite after_bar_of_careers_title, H3. cbn [negb].
    rewrite at_of_careers_title. reflexivity.
  - unfold Not_JoAps_WD.extract_job_info_from_html. cbv zeta.
    rewrite Hwd, Htitle.
    destruct (Not_JoAps_WD.json_ld json_loads soup) as [jt comp].
    cbn [snd] in *. rewrite Hld. cbn [negb].
    pose proof (Hog _ Hld) as H1. rewrite H1. cbn [negb].
    pose proof (Horg _ H1) as H2. rewrite H2. cbn [negb].
    change (Py.contains "|" "Senior Engineer at Acme | Careers") with true.
    change (Py.contains " at " "Senior Engineer at Acme | Careers") with true.
    cbn [Py.truthy andb]. rewrite after_bar_of_careers_title, H2. cbn [negb].
    rewrite at_of_careers_title. reflexivity.
Qed.

Lemma company_from_at_pattern_witness :
  snd (Not_JoAps.extract_job_info_from_html Samples.careers_page
         (Some "jobs.example.com")) = "Acme" /\
  snd (Not_JoAps_WD.extract_job_info_from_html Samples.loads Samples.careers_page
         (Some "jobs.example.com")) = "Acme".
Proof.
  apply company_from_at_pattern.
  - vm_compute. reflexivity.
  - vm_compute. reflexivity.
  - vm_compute. reflexivity.
  - intros c Hc. vm_compute. exact Hc.
  - intros c Hc. vm_compute. exact Hc.
  - intros c Hc. vm_compute. exact Hc.
Defined.

(** An untagged value is no candidate. *)
Lemma try_extract_untagged (v : Json.value) :
  Posting.tagged v = false ->
  Not_JoAps_WD.try_extract_jobposting_from_obj v = Not_JoAps_WD.Returned None.
Proof.
  destruct v as [| | | | |items|fields]; try reflexivity.
  unfold Posting.tagged. cbn [Not_JoAps_WD.try_extract_jobposting_from_obj]. cbv zeta.
  intros ->. reflexivity.
Qed.

(** The loop over the items of a list goes past the untagged ones. *)
Lemma candidate_in_untagged (before rest : list Json.value) :
  List.forallb (fun v => negb (Posting.tagged v)) before = true ->
  Not_JoAps_WD.candidate_in (before ++ rest) = Not_JoAps_WD.candidate_in rest.
Proof.
  induction before as [|v before IH]; [reflexivity|].
  cbn [List.forallb]. rewrite andb_true_iff, negb_true_iff. intros [Hv Hb].
  cbn [app Not_JoAps_WD.candidate_in]. rewrite (try_extract_untagged v Hv).
  apply IH, Hb.
Qed.

(** Both branches of the test on [isinstance(data, list)] run through the
    values the block offers. *)
Lemma candidate_of_offered (data : Json.value) :
  Not_JoAps_WD.candidate_of data = Not_JoAps_WD.candidate_in (Posting.offered data).
Proof.
  destruct data; try reflexivity;
    cbn [Not_JoAps_WD.candidate_of Posting.offered Not_JoAps_WD.candidate_in];
    match goal with
    | |- ?t = _ => destruct t as [[c|]|]; reflexivity
    end.
Qed.

(** A script that is passed over leaves the two variables alone. *)
Lemma scan_scripts_passed_over (json_loads : string -> option Json.value)
    (skipped rest : list Node) :
  List.forallb (Posting.passed_over json_loads) skipped = true ->
  Not_JoAps_WD.scan_scripts json_loads (skipped ++ rest)
    = Not_JoAps_WD.scan_scripts json_loads rest.
Proof.
  induction skipped as [|s skipped IH]; [reflexivity|].
  cbn [List.forallb]. rewrite andb_true_iff. intros [Hs Hrest].
  cbn [app Not_JoAps_WD.scan_scripts]. cbv zeta.
  unfold Posting.passed_over in Hs.
  destruct (Py.is_empty (Not_JoAps_WD.script_text s)); [exact (IH Hrest)|].
  cbn [orb] in Hs.
  destruct (json_loads (Not_JoAps_WD.script_text s)) as [data|]; [|exact (IH Hrest)].
  rewrite candidate_of_offered.
  rewrite <- (app_nil_r (Posting.offered data)), (candidate_in_untagged _ [] Hs).
  cbn [Not_JoAps_WD.candidate_in]. exact (IH Hrest).
Qed.

(** The candidate of an object tagged as a job posting that carries a
    title, under [title] or else under the name of [identifier]. *)
Lemma try_extract_titled (fields : list (string * Json.value)) (title : string) :
  Posting.tagged (Json.Obj fields) = true ->
  (Json.get "title" fields = Json.Str title \/
   Json.truthy (Json.get "title" fields) = false /\
   exists inner, Json.get "identifier" fields = Json.Obj inner /\
                 Json.get "name" inner = Json.Str title) ->
  title <> "" ->
  exists comp,
    Not_JoAps_WD.try_extract_jobposting_from_obj (Json.Obj fields)
      = Not_JoAps_WD.Returned (Some (Some (Py.strip title), comp)).
Proof.
  intros Htag Htitle Hne.
  unfold Posting.tagged in Htag. cbv zeta in Htag.
  cbn [Not_JoAps_WD.try_extract_jobposting_from_obj]. cbv zeta.
  rewrite Htag. cbn [negb].
  destruct Htitle as [Ht|(Hfalsy & inner & Hid & Hname)].
  - rewrite Ht. destruct title as [|c t]; [contradiction|].
    cbn [Json.truthy Py.is_empty negb Json.stripped_str]. eexists. reflexivity.
  - rewrite Hfalsy. unfold Not_JoAps_WD.identifier_name. cbv zeta. rewrite Hid.
    destruct inner as [|kv inner]; [discriminate Hname|].
    cbn [Json.truthy]. rewrite Hname. cbn [Json.stripped_str].
    eexists. reflexivity.
Qed.

(** C3 (as the code has it).  In [Not_JoAps-WD.py] the scripts of type
    [application/ld+json] are read in document order.  Scripts without text,
    scripts [json.loads] rejects and scripts that offer no object tagged as
    a job posting are passed over.  When the first tagged object met after
    them (the block itself, or the first tagged item of a top-level list)
    carries a title that is not blank, under [title] or, without a [title],
    under the name of [identifier], the job title is that title, stripped,
    whatever the heading says. *)
Theorem wd_title_from_job_posting
    (json_loads : string -> option Json.value) (soup : Node)
    (url_hostname : option string)
    (skipped : list Node) (script : Node) (rest : list Node)
    (data : Json.value) (before after : list Json.value)
    (fields : list (string * Json.value)) (title : string) :
  find_all (named_with "script" "type" "application/ld+json") soup
    = (skipped ++ script :: rest)%list ->
  List.forallb (Posting.passed_over json_loads) skipped = true ->
  Not_JoAps_WD.script_text script <> "" ->
  json_loads (Not_JoAps_WD.script_text script) = Some data ->
  Posting.offered data = (before ++ Json.Obj fields :: after)%list ->
  List.forallb (fun v => negb (Posting.tagged v)) before = true ->
  Posting.tagged (Json.Obj fields) = true ->
  (Json.get "title" fields = Json.Str title \/
   Json.truthy (Json.get "title" fields) = false /\
   exists inner, Json.get "identifier" fields = Json.Obj inner /\
                 Json.get "name" inner = Json.Str title) ->
  Py.strip title <> "" ->
  fst (Not_JoAps_WD.extract_job_info_from_html json_loads soup url_hostname)
    = Py.strip title.
Proof.
  intros Hfind Hskip Htext Hloads Hoff Hbefore Htag Htitle Hstrip.
  assert (Hne : title <> "").
  { intros ->. apply Hstrip. reflexivity. }
  destruct (try_extract_titled fields title Htag Htitle Hne) as [comp Hcand].
  assert (Hld : exists comp',
            Not_JoAps_WD.json_ld json_loads soup = (Some (Py.strip title), comp')).
  { unfold Not_JoAps_WD.json_ld. rewrite Hfind, (scan_scripts_passed_over _ _ _ Hskip).
    cbn [Not_JoAps_WD.scan_scripts]. cbv zeta.
    destruct (Not_JoAps_WD.script_text script) as [|c s] eqn:Hs; [contradiction|].
    cbn [Py.is_empty]. rewrite Hloads, candidate_of_offered, Hoff.
    rewrite (candidate_in_untagged _ _ Hbefore).
    cbn [Not_JoAps_WD.candidate_in]. rewrite Hcand.
    destruct (Py.strip title) as [|c'' t''] eqn:Hst; [contradiction|].
    cbn [Py.truthy]. eexists. reflexivity. }
  destruct Hld as [comp' Hld].
  unfold Not_JoAps_WD.extract_job_info_from_html. cbv zeta. rewrite Hld.
  destruct (Py.strip title) as [|c t] eqn:Hst; [contradiction|].
  cbn [fst Py.truthy negb andb]. reflexivity.
Qed.

Lemma wd_title_from_job_posting_witness :
  fst (Not_JoAps_WD.extract_job_info_from_html Blocks.loads Blocks.graph_page
         (Some "jobs.example.com")) = "Platform Engineer" /\
  fst (Not_JoAps.extract_job_info_from_html Blocks.graph_page
         (Some "jobs.example.com")) = "Staff Developer".
Proof.
  split; [|vm_compute; reflexivity].
  change "Platform Engineer" with (Py.strip " Platform Engineer ").
  eapply (wd_title_from_job_posting Blocks.loads Blocks.graph_page _
            [Blocks.ld_script [];
             Blocks.ld_script [Soup.Str Soup.ScriptText "{not json"];
             Blocks.ld_script [Soup.Str Soup.ScriptText Blocks.org_text]]
            (Blocks.ld_script [Soup.Str Soup.ScriptText Blocks.graph_text]) []
            Blocks.graph_value
            [Json.Obj [("@type", Json.Str "WebSite")]] []
            [("@type", Json.Arr [Json.Str "Thing"; Json.Str "JobPosting"]);
             ("identifier", Json.Obj [("name", Json.Str " Platform Engineer ")])]).
  - vm_compute. reflexivity.
  - vm_compute. reflexivity.
  - vm_compute. discriminate.
  - vm_compute. reflexivity.
  - reflexivity.
  - reflexivity.
  - reflexivity.
  - right. split; [reflexivity|]. eexists. split; reflexivity.
  - vm_compute. discriminate.
Defined.

(** C3 (as stated) fails.  [Not_JoAps.py] has no structured-data step: on a
    page with a JobPosting block titled ["Data Engineer"] and a heading
    ["Staff Developer"] it takes the heading.  [Not_JoAps-WD.py] stops at the
    first block tagged as a job posting: when that one has no title, the
    titled block after it is not read and the heading is taken as well; so
    it is when the title of the block is blank. *)
Lemma title_from_heading_despite_job_posting :
  Not_JoAps_WD.json_ld Samples.loads Samples.posting_page
    = (Some "Data Engineer", Some "Other Inc") /\
  fst (Not_JoAps.extract_job_info_from_html Samples.posting_page
         (Some "jobs.example.com")) = "Staff Developer" /\
  Not_JoAps_WD.candidate_of Samples.ld_value
    = Not_JoAps_WD.Returned (Some (Some "Data Engineer", Some "Other Inc")) /\
  fst (Not_JoAps_WD.extract_job_info_from_html Samples.loads Samples.two_block_page
         (Some "jobs.example.com")) = "Staff Developer" /\
  fst (Not_JoAps_WD.extract_job_info_from_html Blocks.loads Blocks.blank_title_page
         (Some "jobs.example.com")) = "Staff Developer".
Proof. repeat split; vm_compute; reflexivity. Qed.

(** * Further facts: names *)

Section Names.

Import Pipeline.

Lemma all_chars_cons (p : ascii -> bool) (c : ascii) (s : string) :
  all_chars p (String c s) = p c && all_chars p s.
Proof. reflexivity. Qed.

Lemma all_chars_app (p : ascii -> bool) (a b : string) :
  all_chars p (a ++ b) = all_chars p a && all_chars p b.
Proof.
  induction a as [|c a IH]; [reflexivity|].
  change (String c a ++ b) with (String c (a ++ b)).
  rewrite !all_chars_cons, IH. apply andb_assoc.
Qed.

Lemma all_chars_weaken (p q : ascii -> bool) (s : string) :
  (forall c, p c = true -> q c = true) ->
  all_chars p s = true -> all_chars q s = true.
Proof.
  intros Hpq. induction s as [|c s IH]; [reflexivity|].
  rewrite !all_chars_cons, !andb_true_iff. intros [Hc Hs]. auto.
Qed.

Lemma all_chars_take (p : ascii -> bool) (n : nat) (s : string) :
  all_chars p s = true -> all_chars p (Py.take n s) = true.
Proof.
  revert s. induction n as [|n IH]; intros [|c s]; try reflexivity.
  cbn [Py.take]. rewrite !all_chars_cons, !andb_true_iff. intros [Hc Hs]. auto.
Qed.

Lemma all_chars_lstrip (p q : ascii -> bool) (s : string) :
  all_chars p s = true -> all_chars p (Py.lstrip_by q s) = true.
Proof.
  induction s as [|c s IH]; [reflexivity|]. cbn [Py.lstrip_by].
  destruct (q c); [|trivial]. rewrite all_chars_cons, andb_true_iff. intros [_ Hs]. auto.
Qed.

Lemma all_chars_rstrip (p q : ascii -> bool) (s : string) :
  all_chars p s = true -> all_chars p (Py.rstrip_by q s) = true.
Proof.
  induction s as [|c s IH]; [reflexivity|]. cbn [Py.rstrip_by]. cbv zeta.
  rewrite all_chars_cons, andb_true_iff. intros [Hc Hs].
  destruct (Py.is_empty (Py.rstrip_by q s) && q c); [reflexivity|].
  rewrite all_chars_cons, Hc. cbn. auto.
Qed.

(** After the first substitution the only whitespace left is the space. *)
Lemma collapse_ws_chars (b : bool) (s : string) :
  all_chars (fun c => negb (Py.is_space c) || Ascii.eqb c " ") (Re.collapse_ws b s) = true.
Proof.
  revert b. induction s as [|c s IH]; intros b; [reflexivity|].
  cbn [Re.collapse_ws]. destruct (Py.is_space c) eqn:Hc.
  - destruct b; [apply IH|]. rewrite all_chars_cons, IH. reflexivity.
  - rewrite all_chars_cons, IH, Hc. reflexivity.
Qed.

Lemma sub_forbidden_chars (p : ascii -> bool) (s : string) :
  all_chars p s = true ->
  all_chars (fun c => p c && negb (Re.forbidden c)) (Re.sub_forbidden s) = true.
Proof.
  induction s as [|c s IH]; [reflexivity|].
  rewrite all_chars_cons, andb_true_iff. intros [Hc Hs]. cbn [Re.sub_forbidden].
  destruct (Re.forbidden c) eqn:Hf; [auto|].
  rewrite all_chars_cons, Hc, Hf, IH by exact Hs. reflexivity.
Qed.

Lemma prefix_single (a c : ascii) (s : string) :
  String.prefix (String a "") (String c s) = if ascii_dec a c then true else false.
Proof.
  unfold String.prefix. destruct (ascii_dec a c); [|reflexivity].
  destruct s; reflexivity.
Qed.

(** Replacing the space by the underscore works character by character. *)
Lemma replace_space_chars (s : string) :
  all_chars (fun c => (negb (Py.is_space c) || Ascii.eqb c " ") && negb (Re.forbidden c)) s = true ->
  all_chars name_char (Py.replace " " "_" s) = true.
Proof.
  unfold Py.replace. induction s as [|c s IH]; [reflexivity|].
  rewrite all_chars_cons, !andb_true_iff. intros [[Hc Hf] Hs].
  cbn [Py.replace_from]. rewrite prefix_single.
  destruct (ascii_dec " " c) as [Heq|Hne].
  - cbn [String.length Nat.sub]. rewrite all_chars_app, IH by exact Hs. reflexivity.
  - rewrite all_chars_cons, IH by exact Hs. rewrite andb_true_r.
    unfold name_char. rewrite Hf. cbn [andb].
    apply orb_true_iff in Hc. destruct Hc as [Hc|Hc]; [exact Hc|].
    apply Ascii.eqb_eq in Hc. congruence.
Qed.

Lemma sanitize_chars (text : string) :
  all_chars name_char (sanitize_for_filename text) = true.
Proof.
  unfold sanitize_for_filename.
  destruct (Py.is_empty text); [vm_compute; reflexivity|]. cbv zeta.
  set (t := Py.replace " " "_" _).
  assert (Ht : all_chars name_char t = true).
  { apply replace_space_chars, sub_forbidden_chars.
    unfold Py.strip, Py.strip_by. apply all_chars_rstrip, all_chars_lstrip.
    apply collapse_ws_chars. }
  apply (all_chars_take _ 80) in Ht.
  destruct (Py.take 80 t) as [|c r]; [vm_compute; reflexivity|exact Ht].
Qed.

Lemma take_length (n : nat) (s : string) : (String.length (Py.take n s) <= n)%nat.
Proof.
  revert s. induction n as [|n IH]; intros [|c s]; cbn; try lia.
  specialize (IH s). lia.
Qed.

Lemma sanitize_length (text : string) :
  (1 <= String.length (sanitize_for_filename text) <= 80)%nat.
Proof.
  unfold sanitize_for_filename.
  destruct (Py.is_empty text); [cbn; lia|]. cbv zeta.
  set (t := Py.replace " " "_" _).
  pose proof (take_length 80 t) as Hl.
  destruct (Py.take 80 t) as [|c r]; cbn in *; lia.
Qed.

(** X1.  Whatever the text, the name made of it has between 1 and 80
    characters, none of them one of the nine removed characters (backslash,
    slash, colon, star, question mark, double quote, angle brackets, bar)
    and none of them whitespace. *)
Theorem sanitize_for_filename_name (text : string) :
  (1 <= String.length (sanitize_for_filename text) <= 80)%nat /\
  all_chars name_char (sanitize_for_filename text) = true.
Proof. split; [apply sanitize_length|apply sanitize_chars]. Qed.

Lemma collapse_ws_id (b : bool) (s : string) :
  all_chars (fun c => negb (Py.is_space c)) s = true -> Re.collapse_ws b s = s.
Proof.
  revert b. induction s as [|c s IH]; intros b; [reflexivity|].
  rewrite all_chars_cons, andb_true_iff. intros [Hc Hs].
  cbn [Re.collapse_ws]. apply negb_true_iff in Hc. rewrite Hc.
  f_equal. apply IH, Hs.
Qed.

Lemma lstrip_id (p : ascii -> bool) (s : string) :
  all_chars (fun c => negb (p c)) s = true -> Py.lstrip_by p s = s.
Proof.
  destruct s as [|c s]; [reflexivity|].
  rewrite all_chars_cons, andb_true_iff. intros [Hc _].
  cbn [Py.lstrip_by]. apply negb_true_iff in Hc. rewrite Hc. reflexivity.
Qed.

Lemma rstrip_id (p : ascii -> bool) (s : string) :
  all_chars (fun c => negb (p c)) s = true -> Py.rstrip_by p s = s.
Proof.
  induction s as [|c s IH]; [reflexivity|].
  rewrite all_chars_cons, andb_true_iff. intros [Hc Hs].
  cbn [Py.rstrip_by]. cbv zeta. apply negb_true_iff in Hc.
  rewrite Hc, andb_false_r, IH by exact Hs. reflexivity.
Qed.

Lemma sub_forbidden_id (s : string) :
  all_chars (fun c => negb (Re.forbidden c)) s = true -> Re.sub_forbidden s = s.
Proof.
  induction s as [|c s IH]; [reflexivity|].
  rewrite all_chars_cons, andb_true_iff. intros [Hc Hs].
  cbn [Re.sub_forbidden]. apply negb_true_iff in Hc. rewrite Hc.
  f_equal. apply IH, Hs.
Qed.

Lemma replace_space_id (s : string) :
  all_chars (fun c => negb (Py.is_space c)) s = true -> Py.replace " " "_" s = s.
Proof.
  unfold Py.replace. induction s as [|c s IH]; [reflexivity|].
  rewrite all_chars_cons, andb_true_iff. intros [Hc Hs].
  cbn [Py.replace_from]. rewrite prefix_single.
  destruct (ascii_dec " " c) as [Heq|Hne].
  - subst c. discriminate Hc.
  - f_equal. apply IH, Hs.
Qed.

Lemma take_id (n : nat) (s : string) :
  (String.length s <= n)%nat -> Py.take n s = s.
Proof.
  revert s. induction n as [|n IH]; intros [|c s]; cbn; try reflexivity; try lia.
  intros H. f_equal. apply IH. lia.
Qed.

(** A text that already is a name is left as it is. *)
Lemma sanitize_of_name (r : string) :
  r <> "" ->
  (String.length r <= 80)%nat ->
  all_chars name_char r = true ->
  sanitize_for_filename r = r.
Proof.
  intros Hne Hlen Hr.
  assert (Hs : all_chars (fun c => negb (Py.is_space c)) r = true).
  { revert Hr. apply all_chars_weaken. unfold name_char. intros c Hc.
    apply andb_true_iff in Hc. tauto. }
  assert (Hf : all_chars (fun c => negb (Re.forbidden c)) r = true).
  { revert Hr. apply all_chars_weaken. unfold name_char. intros c Hc.
    apply andb_true_iff in Hc. tauto. }
  unfold sanitize_for_filename.
  destruct r as [|c r]; [contradiction|]. cbn [Py.is_empty]. cbv zeta.
  unfold Re.sub_whitespace, Py.strip, Py.strip_by.
  rewrite collapse_ws_id, lstrip_id, rstrip_id, sub_forbidden_id,
    replace_space_id, take_id by assumption.
  reflexivity.
Qed.

(** X2.  Sanitizing twice is sanitizing once: a sanitized name passes
    through [sanitize_for_filename] unchanged. *)
Theorem sanitize_for_filename_idempotent (text : string) :
  sanitize_for_filename (sanitize_for_filename text) = sanitize_for_filename text.
Proof.
  pose proof (sanitize_length text) as [Hlo Hhi].
  apply sanitize_of_name; [|exact Hhi|apply sanitize_chars].
  intros H. rewrite H in Hlo. cbn in Hlo. lia.
Qed.

Lemma collapse_ws_blank (s : string) :
  all_chars Py.is_space s = true -> Re.collapse_ws true s = "".
Proof.
  induction s as [|c s IH]; [reflexivity|].
  rewrite all_chars_cons, andb_true_iff. intros [Hc Hs].
  cbn [Re.collapse_ws]. rewrite Hc. apply IH, Hs.
Qed.

(** X3.  A text made of whitespace only, the empty text included, gives the
    name ["Unknown"]. *)
Theorem sanitize_for_filename_blank (text : string) :
  all_chars Py.is_space text = true ->
  sanitize_for_filename text = "Unknown".
Proof.
  intros Hb. unfold sanitize_for_filename.
  destruct text as [|c s]; [reflexivity|]. cbn [Py.is_empty]. cbv zeta.
  rewrite all_chars_cons, andb_true_iff in Hb. destruct Hb as [Hc Hs].
  unfold Re.sub_whitespace. cbn [Re.collapse_ws]. rewrite Hc.
  rewrite collapse_ws_blank by exact Hs. reflexivity.
Qed.

Lemma sanitize_for_filename_blank_witness :
  sanitize_for_filename (String (ascii_of_nat 9) "  ") = "Unknown".
Proof. apply sanitize_for_filename_blank. reflexivity. Defined.

End Names.

(** * Further facts: the paths of the screenshot and of the PDF *)

Section Paths.

Import Pipeline.

Lemma sub_non_alnum_chars (b : bool) (s : string) :
  all_chars url_char (sub_non_alnum b s) = true.
Proof.
  revert b. induction s as [|c s IH]; intros b; [reflexivity|].
  cbn [sub_non_alnum]. destruct (is_alnum c) eqn:Hc.
  - rewrite all_chars_cons, IH. unfold url_char. rewrite Hc. reflexivity.
  - destruct b; [apply IH|]. rewrite all_chars_cons, IH. reflexivity.
Qed.

(** X4.  The part of the screenshot's name made from the URL has between 1
    and 50 characters, each a letter, a digit or the underscore, whatever
    the URL. *)
Theorem safe_url_part_name (url : string) :
  (1 <= String.length (safe_url_part url) <= 50)%nat /\
  all_chars url_char (safe_url_part url) = true.
Proof.
  unfold safe_url_part.
  pose proof (take_length 50 (sub_non_alnum false url)) as Hl.
  pose proof (all_chars_take url_char 50 _ (sub_non_alnum_chars false url)) as Hc.
  destruct (Py.take 50 (sub_non_alnum false url)) as [|c r].
  - split; [cbn; lia|reflexivity].
  - cbn [Py.or_else]. split; [cbn in *; lia|exact Hc].
Qed.

(** X5.  The name of the PDF holds none of the removed characters and no
    whitespace, so no path separator, when the date holds none; it is at
    most 166 characters longer than the date. *)
Theorem pdf_filename_name (today_str company job_title : string) :
  all_chars name_char today_str = true ->
  all_chars name_char (pdf_filename today_str company job_title) = true /\
  (String.length (pdf_filename today_str company job_title)
     <= String.length today_str + 166)%nat.
Proof.
  intros Hd. unfold pdf_filename. cbv zeta. split.
  - rewrite !all_chars_app, Hd, !sanitize_chars. reflexivity.
  - pose proof (sanitize_length company). pose proof (sanitize_length job_title).
    rewrite !string_length_app. cbn [String.length]. lia.
Qed.

Lemma pdf_filename_name_witness :
  all_chars name_char (pdf_filename "2024-05-17" "A/B Testing: Inc" "") = true /\
  (String.length (pdf_filename "2024-05-17" "A/B Testing: Inc" "") <= 10 + 166)%nat.
Proof. apply (pdf_filename_name "2024-05-17"). reflexivity. Defined.

Lemma string_app_assoc (a b c : string) : (a ++ b) ++ c = a ++ (b ++ c).
Proof.
  induction a as [|x a IH]; [reflexivity|].
  change (String x (a ++ b) ++ c = String x (a ++ (b ++ c))).
  change (String x ((a ++ b) ++ c) = String x (a ++ (b ++ c))). f_equal. exact IH.
Qed.

Lemma contains_self (sub : string) : Py.contains sub sub = true.
Proof.
  assert (Hp : String.prefix sub sub = true).
  { induction sub as [|c s IH]; [reflexivity|]. cbn [String.prefix].
    destruct (ascii_dec c c); [exact IH|congruence]. }
  destruct sub; cbn [Py.contains]; rewrite Hp; reflexivity.
Qed.

Lemma contains_app_r (sub a : string) : Py.contains sub (a ++ sub) = true.
Proof.
  induction a as [|c a IH]; [apply contains_self|].
  change (String c a ++ sub) with (String c (a ++ sub)). cbn [Py.contains].
  rewrite IH. apply orb_true_r.
Qed.

(** A replacement whose new text starts with another character than the
    old one changes every text that holds the old one. *)
Lemma replace_changes (a b : ascii) (old new s : string) :
  a <> b ->
  Py.contains (String a old) s = true ->
  Py.replace (String a old) (String b new) s <> s.
Proof.
  intros Hab. unfold Py.replace. induction s as [|c s IH]; [discriminate|].
  cbn [Py.contains Py.replace_from]. intros Hc.
  destruct (String.prefix (String a old) (String c s)) eqn:Hp.
  - cbn [String.prefix] in Hp. destruct (ascii_dec a c) as [->|]; [|discriminate].
    change (String b new ++ ?r) with (String b (new ++ r)).
    intros Heq. injection Heq as Hbc _. congruence.
  - cbn [orb] in Hc. intros Heq. injection Heq as Heq. exact (IH Hc Heq).
Qed.

(** A replacement leaves a text without the old one as it is. *)
Lemma replace_absent (old new s : string) :
  Py.contains old s = false -> Py.replace old new s = s.
Proof.
  unfold Py.replace. induction s as [|c s IH]; [reflexivity|].
  cbn [Py.contains Py.replace_from]. intros Hc.
  apply orb_false_iff in Hc. destruct Hc as [Hp Hc]. rewrite Hp.
  f_equal. exact (IH Hc).
Qed.

Lemma path_join_suffix (a b x : string) :
  exists y, path_join a (b ++ x) = y ++ x.
Proof.
  unfold path_join.
  destruct (String.prefix "/" (b ++ x)); [exists b; reflexivity|].
  destruct (Py.is_empty a); [exists b; reflexivity|].
  destruct (String.eqb _ "/").
  - exists (a ++ b). symmetry. apply string_app_assoc.
  - exists (a ++ "/" ++ b). rewrite !string_app_assoc. reflexivity.
Qed.

(** X6.  The scratch JPEG of the conversion is never the screenshot
    itself: the path [capture_fullpage_screenshot] makes ends in [.png], so
    the replacement of [.png] by [_tmp.jpg] changes it. *)
Theorem screenshot_path_scratch_differs (out_dir url timestamp : string) :
  Py.replace ".png" "_tmp.jpg" (screenshot_path out_dir url timestamp)
    <> screenshot_path out_dir url timestamp.
Proof.
  unfold screenshot_path.
  destruct (path_join_suffix out_dir (safe_url_part url ++ "_" ++ timestamp) ".png")
    as [y Hy].
  rewrite !string_app_assoc in Hy. rewrite Hy.
  apply replace_changes; [discriminate|apply contains_app_r].
Qed.

End Paths.

(** * Further facts: the conversion and the cleanup of [main] *)

Import Pipeline.

(** Which way a run on given files went, settled by computation: the first
    closes the case that it raised, the second the case that it returned. *)
Ltac it_returned Hrun :=
  exfalso;
  match type of Hrun with
  | ?t = _ =>
      let H := fresh in
      assert (H : match t.1 with Ok _ => true | Raise _ => false end = true)
        by (vm_compute; reflexivity);
      rewrite Hrun in H; discriminate H
  end.

Ltac it_raised Hrun :=
  exfalso;
  match type of Hrun with
  | ?t = _ =>
      let H := fresh in
      assert (H : match t.1 with Ok _ => false | Raise _ => true end = true)
        by (vm_compute; reflexivity);
      rewrite Hrun in H; discriminate H
  end.

(** A call that returns, read off [plan]. *)
Lemma compress_ok_shape (codec : Codec) (png_path pdf_path : string)
    (max_bytes : Z) (fs fs' : FS) (r : Return) :
  compress_png_to_pdf_under_size codec png_path pdf_path max_bytes fs = (Ok r, fs') ->
  exists (f : file) (fs1 : FS),
    let temp_jpeg := Py.replace ".png" "_tmp.jpg" png_path in
    let tmp_pdf := pdf_path ++ ".tmp" in
    let pl := plan codec (f_width f) (f_height f) max_bytes 7 1%float in
    fs !! png_path = Some f /\
    (forall p, p <> temp_jpeg -> p <> tmp_pdf -> fs1 !! p = fs !! p) /\
    pl.2 <> Refused /\
    r = {| ret_path := pdf_path; ret_exit := exit_of pl.2; ret_attempts := pl.1 |} /\
    fs' = delete temp_jpeg (<[pdf_path := last_file pl.1 f]> (delete tmp_pdf fs1)).
Proof.
  intros Hrun.
  destruct (compress_returns_inv _ _ _ _ _ _ _ Hrun) as (f & Hf & Hk).
  destruct (compress_run codec png_path pdf_path max_bytes fs f Hf Hk)
    as (fs1 & Hfr & _ & Heq).
  exists f, fs1. cbv zeta. rewrite Hrun in Heq.
  split; [exact Hf|]. split; [exact Hfr|].
  destruct (plan codec (f_width f) (f_height f) max_bytes 7 1).2;
    inversion Heq; subst; repeat split; discriminate.
Qed.

(** X7.  A screenshot whose path does not hold [.png] is its own scratch
    file: the replacement leaves the path as it is, the JPEG is written over
    the screenshot, and a call that returns has removed it. *)
Theorem compress_consumes_unmarked_screenshot (codec : Codec)
    (png_path pdf_path : string) (max_bytes : Z) (fs fs' : FS) (r : Return) :
  Py.contains ".png" png_path = false ->
  compress_png_to_pdf_under_size codec png_path pdf_path max_bytes fs = (Ok r, fs') ->
  Py.replace ".png" "_tmp.jpg" png_path = png_path /\
  fs' !! png_path = None.
Proof.
  intros Hc Hrun.
  destruct (compress_ok_shape _ _ _ _ _ _ _ Hrun) as (f & fs1 & _ & _ & _ & _ & Hfs).
  cbv zeta in Hfs. rewrite (replace_absent _ _ _ Hc) in Hfs.
  split; [apply replace_absent, Hc|]. subst fs'. apply lookup_delete_eq.
Qed.

Lemma compress_consumes_unmarked_screenshot_witness :
  exists r fs',
    compress_png_to_pdf_under_size Samples.pillow "captures/job.PNG" "out.pdf" 100000
      {[ "captures/job.PNG" := File Png 1280 2000 2560000 ]} = (Ok r, fs') /\
    fs' !! "captures/job.PNG" = None.
Proof.
  destruct (compress_png_to_pdf_under_size _ _ _ _ _) as [[r|e] fs'] eqn:Hrun.
  - exists r, fs'. split; [reflexivity|].
    refine (proj2 (compress_consumes_unmarked_screenshot _ _ _ _ _ _ _ _ Hrun)).
    vm_compute. reflexivity.
  - it_returned Hrun.
Defined.

(** X8.  A call that raises leaves every file but the two scratch files as
    it was, the destination included; when the exception is not the one of
    [resize], the screenshot could not be opened and nothing was written at
    all. *)
Theorem compress_raise_frame (codec : Codec) (png_path pdf_path : string)
    (max_bytes : Z) (fs fs' : FS) (e : exn) :
  compress_png_to_pdf_under_size codec png_path pdf_path max_bytes fs = (Raise e, fs') ->
  let temp_jpeg := Py.replace ".png" "_tmp.jpg" png_path in
  let tmp_pdf := pdf_path ++ ".tmp" in
  (forall p, p <> temp_jpeg -> p <> tmp_pdf -> fs' !! p = fs !! p) /\
  (pdf_path <> temp_jpeg -> fs' !! pdf_path = fs !! pdf_path) /\
  (e <> ValueError -> fs' = fs).
Proof.
  intros Hrun temp_jpeg tmp_pdf.
  assert (Hmain : (forall p, p <> temp_jpeg -> p <> tmp_pdf -> fs' !! p = fs !! p) /\
                  (e <> ValueError -> fs' = fs)).
  { destruct (fs !! png_path) as [f|] eqn:Hf.
    - destruct (f_kind f) eqn:Hk.
      3:{ unfold compress_png_to_pdf_under_size, mbind, M_bind, image_open in Hrun.
          rewrite Hf, Hk in Hrun. inversion Hrun; subst. split; done. }
      all: destruct (compress_run codec png_path pdf_path max_bytes fs f Hf
                       ltac:(congruence)) as (fs1 & Hfr & _ & Heq);
        rewrite Hrun in Heq;
        destruct (plan codec (f_width f) (f_height f) max_bytes 7 1).2;
        inversion Heq; subst; split; [exact Hfr|congruence].
    - unfold compress_png_to_pdf_under_size, mbind, M_bind, image_open in Hrun.
      rewrite Hf in Hrun. inversion Hrun; subst. split; done. }
  destruct Hmain as [Hfr He]. split; [exact Hfr|]. split; [|exact He].
  intros Hne. apply Hfr; [exact Hne|]. intros H. symmetry in H.
  exact (tmp_pdf_fresh _ H).
Qed.

Lemma compress_raise_frame_witness :
  exists e fs',
    compress_png_to_pdf_under_size Samples.pillow "captures/job.png" "out.pdf" 1000
      (<[ "out.pdf" := File Pdf 1 1 7 ]> (Samples.screenshot 1000 1)) = (Raise e, fs') /\
    fs' !! "out.pdf" = Some (File Pdf 1 1 7).
Proof.
  destruct (compress_png_to_pdf_under_size _ _ _ _ _) as [[r|e] fs'] eqn:Hrun.
  - it_raised Hrun.
  - exists e, fs'. split; [reflexivity|].
    destruct (compress_raise_frame _ _ _ _ _ _ _ Hrun) as (_ & H & _).
    rewrite H; [vm_compute; reflexivity|vm_compute; discriminate].
Defined.






(** *** The [finally] block of [main] *)

Lemma remove_if_exists_run (p : string) (fs : FS) :
  remove_if_exists (Some p) fs = (Ok tt, if Py.is_empty p then fs else delete p fs).
Proof.
  unfold remove_if_exists. destruct (Py.is_empty p); [reflexivity|].
  unfold mbind, M_bind, exists_, swallow, remove, mret, M_ret.
  case_bool_decide as Hp.
  - destruct Hp as [x Hx]. rewrite Hx. reflexivity.
  - destruct (fs !! p) eqn:E; [exfalso; eauto|].
    rewrite delete_id by exact E. reflexivity.
Qed.

Lemma cleanup_run (pdf_path png_path : string) (fs : FS) :
  pdf_path <> "" -> png_path <> "" ->
  (cleanup (Some pdf_path) (Some png_path) fs).2 = delete png_path (delete pdf_path fs).
Proof.
  intros H1 H2. unfold cleanup, mbind, M_bind. rewrite !remove_if_exists_run.
  destruct pdf_path; [done|]. destruct png_path; [done|]. reflexivity.
Qed.

Lemma cleanup_frame (pdf_path png_path p : string) (fs : FS) :
  p <> pdf_path -> p <> png_path ->
  (cleanup (Some pdf_path) (Some png_path) fs).2 !! p = fs !! p.
Proof.
  intros H1 H2. unfold cleanup, mbind, M_bind. rewrite !remove_if_exists_run.
  destruct (Py.is_empty pdf_path), (Py.is_empty png_path); cbn [snd];
    rewrite ?lookup_delete_ne by done; reflexivity.
Qed.

(** X11.  After a conversion that returned, the [finally] block of [main]
    leaves none of the four files of the run behind (screenshot, PDF,
    scratch JPEG, scratch PDF), and every other file is as it was before the
    conversion. *)
Theorem main_files_clean (codec : Codec) (png_path pdf_path : string)
    (max_bytes : Z) (fs fs' : FS) (r : Return) :
  compress_png_to_pdf_under_size codec png_path pdf_path max_bytes fs = (Ok r, fs') ->
  png_path <> "" -> pdf_path <> "" ->
  let temp_jpeg := Py.replace ".png" "_tmp.jpg" png_path in
  let tmp_pdf := pdf_path ++ ".tmp" in
  let out := main_files codec png_path pdf_path max_bytes fs in
  out !! png_path = None /\ out !! pdf_path = None /\
  out !! temp_jpeg = None /\ out !! tmp_pdf = None /\
  (forall p, p <> png_path -> p <> pdf_path -> p <> temp_jpeg -> p <> tmp_pdf ->
     out !! p = fs !! p).
Proof.
  intros Hrun Hpng Hpdf temp_jpeg tmp_pdf out.
  assert (Hout : out = delete png_path (delete pdf_path fs')).
  { unfold out, main_files. rewrite Hrun. apply cleanup_run; assumption. }
  destruct (compress_ok_shape _ _ _ _ _ _ _ Hrun) as (f & fs1 & _ & Hfr & _ & _ & Hfs).
  cbv zeta in Hfr, Hfs. fold temp_jpeg tmp_pdf in Hfr, Hfs.
  assert (Htmp : tmp_pdf <> pdf_path) by apply tmp_pdf_fresh.
  rewrite Hout, Hfs. repeat split.
  - apply lookup_delete_eq.
  - apply lookup_delete_None. right. apply lookup_delete_eq.
  - rewrite !lookup_delete_None. right. right. left. reflexivity.
  - rewrite !lookup_delete_None. right. right. right.
    rewrite lookup_insert_ne by congruence. apply lookup_delete_eq.
  - intros p H1 H2 H3 H4.
    rewrite !lookup_delete_ne, lookup_insert_ne, lookup_delete_ne by congruence.
    apply Hfr; assumption.
Qed.

Lemma main_files_clean_witness :
  main_files Samples.pillow "captures/job.png" "out.pdf" 100000
    (Samples.screenshot 1280 2000) !! "out.pdf" = None /\
  main_files Samples.pillow "captures/job.png" "out.pdf" 100000
    (Samples.screenshot 1280 2000) !! "captures/job_tmp.jpg" = None.
Proof.
  destruct (compress_png_to_pdf_under_size Samples.pillow "captures/job.png" "out.pdf"
              100000 (Samples.screenshot 1280 2000)) as [[r|e] fs'] eqn:Hrun.
  - destruct (main_files_clean _ _ _ _ _ _ _ Hrun) as (_ & H1 & H2 & _);
      [discriminate|discriminate|].
    split; [exact H1|exact H2].
  - it_returned Hrun.
Defined.


Section Residue.

Variable codec : Codec.
Variables (width height : Z) (pdf_path temp_jpeg tmp_pdf : string).
Variable max_bytes : Z.

(** A loop that raises has deleted nothing. *)
Lemma attempts_raise_keeps (n : nat) :
  forall (scale : float) (log : list Attempt) (fs fs1 : FS) (e : exn),
    (n = 0%nat -> is_Some (fs !! tmp_pdf)) ->
    attempts codec width height pdf_path temp_jpeg tmp_pdf max_bytes n scale log fs
      = (Raise e, fs1) ->
    forall p, is_Some (fs !! p) -> is_Some (fs1 !! p).
Proof.
  induction n as [|n IH]; intros scale log fs fs1 e H0 Hrun p Hp.
  - destruct (H0 eq_refl) as [f Hf]. cbn [attempts] in Hrun.
    rewrite (finish_run _ _ _ _ _ _ _ Hf) in Hrun. discriminate.
  - rewrite attempts_step in Hrun. cbv zeta in Hrun.
    destruct (resize_ok codec _ _); [|inversion Hrun; subst; exact Hp].
    destruct (accepts _ _ _).
    + erewrite finish_run in Hrun by apply lookup_insert_eq. discriminate.
    + eapply IH; [|exact Hrun|].
      * intros _. rewrite lookup_insert_eq. eauto.
      * rewrite !lookup_insert_is_Some'. auto.
Qed.

End Residue.

(** X12.  The [finally] block of [main] removes the screenshot and the PDF
    only.  When [resize] took the first target and the conversion raised
    all the same, the scratch JPEG and the scratch PDF are still there after
    [main], so the capture folder is not empty. *)
Theorem main_files_residue (codec : Codec) (png_path pdf_path : string)
    (max_bytes : Z) (fs fs1 : FS) (f : file) (e : exn) :
  fs !! png_path = Some f ->
  f_kind f <> Pdf ->
  resize_ok codec (target_w (f_width f) 1) (target_h (f_height f) 1) = true ->
  compress_png_to_pdf_under_size codec png_path pdf_path max_bytes fs = (Raise e, fs1) ->
  let temp_jpeg := Py.replace ".png" "_tmp.jpg" png_path in
  let tmp_pdf := pdf_path ++ ".tmp" in
  temp_jpeg <> png_path -> temp_jpeg <> pdf_path -> tmp_pdf <> png_path ->
  let out := main_files codec png_path pdf_path max_bytes fs in
  is_Some (out !! temp_jpeg) /\ is_Some (out !! tmp_pdf).
Proof.
  intros Hf Hk Hres Hrun temp_jpeg tmp_pdf H1 H2 H3 out.
  assert (Htmp : tmp_pdf <> pdf_path) by apply tmp_pdf_fresh.
  assert (Hout : forall p, p <> pdf_path -> p <> png_path -> out !! p = fs1 !! p).
  { intros p Hp1 Hp2. unfold out, main_files. rewrite Hrun.
    apply cleanup_frame; assumption. }
  rewrite !Hout by assumption.
  unfold compress_png_to_pdf_under_size, mbind, M_bind, image_open in Hrun.
  rewrite Hf in Hrun.
  assert (Hloop : attempts codec (f_width f) (f_height f) pdf_path temp_jpeg tmp_pdf
                    max_bytes 7 1 [] fs = (Raise e, fs1)).
  { destruct (f_kind f); [exact Hrun|exact Hrun|congruence]. }
  clear Hrun. rewrite attempts_step in Hloop. cbv zeta in Hloop.
  rewrite Hres in Hloop.
  destruct (accepts _ _ _).
  - erewrite finish_run in Hloop by apply lookup_insert_eq. discriminate.
  - split; eapply attempts_raise_keeps; try exact Hloop; try discriminate;
      rewrite !lookup_insert_is_Some'; auto.
Qed.

Lemma main_files_residue_witness :
  is_Some (main_files Samples.pillow "captures/job.png" "out.pdf" 1000
             (Samples.screenshot 1000 1) !! "captures/job_tmp.jpg") /\
  is_Some (main_files Samples.pillow "captures/job.png" "out.pdf" 1000
             (Samples.screenshot 1000 1) !! "out.pdf.tmp").
Proof.
  destruct (compress_png_to_pdf_under_size Samples.pillow "captures/job.png" "out.pdf"
              1000 (Samples.screenshot 1000 1)) as [[r|e] fs1] eqn:Hrun.
  - it_raised Hrun.
  - apply (main_files_residue Samples.pillow "captures/job.png" "out.pdf" 1000
             (Samples.screenshot 1000 1) fs1 (File Png 1000 1 1000) e).
    + vm_compute. reflexivity.
    + discriminate.
    + vm_compute. reflexivity.
    + exact Hrun.
    + vm_compute. discriminate.
    + vm_compute. discriminate.
    + vm_compute. discriminate.
Defined.

(** * Further facts: the extractor *)

(** X13.  The job title [main] goes on with is never empty, in either
    script: the extractor returns a title that is not empty, and the
    confirmation keeps it unless a text that is not blank is typed. *)
Theorem confirmed_title_nonempty (json_loads : string -> option Json.value)
    (soup : Node) (url_hostname : option string) (typed : string) :
  prompt_with_default
    (fst (Not_JoAps.extract_job_info_from_html soup url_hostname)) typed <> "" /\
  prompt_with_default
    (fst (Not_JoAps_WD.extract_job_info_from_html json_loads soup url_hostname)) typed
    <> "".
Proof.
  destruct (extract_title_nonempty json_loads soup url_hostname) as [H1 H2].
  split; apply or_else_nonempty; assumption.
Qed.

(** X14.  On a Workday host the company is the brand made of the first
    label of the host (hyphens to spaces, each word capitalized), whatever
    the page and its JSON-LD say, as soon as that brand is not empty. *)
Theorem wd_company_is_brand
    (json_loads : string -> option Json.value) (soup : Node) (host : string) :
  Py.contains "myworkdayjobs.com" (Py.lower host) = true ->
  let label := Py.first (Py.split "." (Py.replace "www." "" (Py.lower host))) in
  let brand :=
    Py.join " " (List.map Py.capitalize (Py.words (Py.replace "-" " " label))) in
  brand <> "" ->
  snd (Not_JoAps_WD.extract_job_info_from_html json_loads soup (Some host)) = brand.
Proof.
  intros Hwd label brand Hbrand.
  assert (Hhost : Py.or_else (Some host) "" = host) by (destruct host; reflexivity).
  assert (Hlabel : Py.is_empty label = false).
  { destruct label eqn:Hl; [|reflexivity]. exfalso. apply Hbrand.
    unfold brand. reflexivity. }
  unfold Not_JoAps_WD.extract_job_info_from_html. cbv zeta.
  rewrite Hhost, Hwd.
  destruct (Not_JoAps_WD.json_ld json_loads soup) as [jt comp].
  unfold Not_JoAps_WD.workday_brand. cbv zeta. fold label. rewrite Hlabel.
  fold brand. destruct brand as [|c b]; [contradiction|].
  cbn [snd Py.truthy negb andb].
  destruct (title_text_of soup) as [t|]; rewrite ?andb_false_r; reflexivity.
Qed.

Lemma wd_company_is_brand_witness :
  snd (Not_JoAps_WD.extract_job_info_from_html Samples.loads Samples.posting_page
         (Some "first-hawaiian.wd3.myworkdayjobs.com")) = "First Hawaiian".
Proof.
  apply (wd_company_is_brand Samples.loads Samples.posting_page
           "first-hawaiian.wd3.myworkdayjobs.com").
  - vm_compute. reflexivity.
  - vm_compute. discriminate.
Defined.

(** Selectors that find nothing leave the variable as it is. *)
Lemma from_selectors_idle (selectors : list (string * string)) (soup : Node) :
  from_selectors selectors soup None = None ->
  forall current, from_selectors selectors soup current = current.
Proof.
  induction selectors as [|[attr value] rest IH]; intros H current; [reflexivity|].
  cbn [from_selectors] in *.
  destruct (find (attr_search attr value) soup) as [el|]; [|exact (IH H current)].
  destruct (Py.is_empty (get_text_strip el)); [exact (IH H current)|discriminate].
Qed.

Lemma if_same {A : Type} (b : bool) (x : A) : (if b then x else x) = x.
Proof. destruct b; reflexivity. Qed.

Lemma or_else_host (url_hostname : option string) :
  Py.or_else (Some (Py.or_else url_hostname "")) "Unknown"
    = Py.or_else url_hostname "Unknown".
Proof. destruct url_hostname as [[|c s]|]; reflexivity. Qed.

(** Scripts that are all passed over leave both variables unset. *)
Lemma json_ld_passed_over (json_loads : string -> option Json.value) (soup : Node) :
  List.forallb (Posting.passed_over json_loads)
    (find_all (named_with "script" "type" "application/ld+json") soup) = true ->
  Not_JoAps_WD.json_ld json_loads soup = (None, None).
Proof.
  intros H. unfold Not_JoAps_WD.json_ld.
  rewrite <- (app_nil_r (find_all _ soup)), (scan_scripts_passed_over _ _ _ H).
  reflexivity.
Qed.

(** X15.  The two scripts agree, title and company, on every page that
    offers no object tagged as a job posting in its JSON-LD scripts and has
    no company container for the selectors of [Not_JoAps.py], at a host in
    lower case that is not a Workday host. *)
Theorem wd_agrees_with_generic
    (json_loads : string -> option Json.value) (soup : Node)
    (url_hostname : option string) :
  List.forallb (Posting.passed_over json_loads)
    (find_all (named_with "script" "type" "application/ld+json") soup) = true ->
  Py.contains "myworkdayjobs.com" (Py.lower (Py.or_else url_hostname "")) = false ->
  Py.lower (Py.or_else url_hostname "") = Py.or_else url_hostname "" ->
  from_selectors possible_company_selectors soup None = None ->
  Not_JoAps_WD.extract_job_info_from_html json_loads soup url_hostname
    = Not_JoAps.extract_job_info_from_html soup url_hostname.
Proof.
  intros Hscan Hwd Hlow Hsel.
  unfold Not_JoAps_WD.extract_job_info_from_html, Not_JoAps.extract_job_info_from_html.
  cbv zeta.
  rewrite (json_ld_passed_over _ _ Hscan), Hwd, Hlow.
  cbn [Py.truthy negb].
  rewrite !(from_selectors_idle _ _ Hsel), !if_same, or_else_host.
  reflexivity.
Qed.

Lemma wd_agrees_with_generic_witness :
  Not_JoAps_WD.extract_job_info_from_html Samples.loads Samples.careers_page
    (Some "jobs.example.com")
  = Not_JoAps.extract_job_info_from_html Samples.careers_page (Some "jobs.example.com").
Proof.
  apply wd_agrees_with_generic; vm_compute; reflexivity.
Defined.

(** X16.  A heading with text is the job title: in [Not_JoAps.py] always,
    in [Not_JoAps-WD.py] whenever the JSON-LD scripts gave no title.  The
    selectors, the title of the page and the host are not looked at. *)
Theorem title_from_heading
    (json_loads : string -> option Json.value) (soup h1 : Node)
    (url_hostname : option string) :
  find (named "h1") soup = Some h1 ->
  get_text_strip h1 <> "" ->
  fst (Not_JoAps.extract_job_info_from_html soup url_hostname) = get_text_strip h1 /\
  (Py.truthy (fst (Not_JoAps_WD.json_ld json_loads soup)) = false ->
   fst (Not_JoAps_WD.extract_job_info_from_html json_loads soup url_hostname)
     = get_text_strip h1).
Proof.
  intros Hfind Htext. split.
  - unfold Not_JoAps.extract_job_info_from_html. cbv zeta. cbn [fst].
    unfold from_h1. rewrite Hfind.
    destruct (get_text_strip h1) as [|c t]; [contradiction|].
    cbn [Py.is_empty Py.truthy negb andb Py.or_else]. reflexivity.
  - intros Hld. unfold Not_JoAps_WD.extract_job_info_from_html. cbv zeta.
    destruct (Not_JoAps_WD.json_ld json_loads soup) as [jt comp]. cbn [fst] in *.
    rewrite Hld. cbn [negb]. unfold from_h1. rewrite Hfind.
    destruct (get_text_strip h1) as [|c t]; [contradiction|].
    cbn [Py.is_empty Py.truthy negb andb Py.or_else]. reflexivity.
Qed.

Lemma title_from_heading_witness :
  fst (Not_JoAps.extract_job_info_from_html Samples.posting_page
         (Some "jobs.example.com")) = "Staff Developer".
Proof.
  refine (proj1 (title_from_heading Samples.loads Samples.posting_page
                   (Soup.Tag "h1" [] [Soup.Str Soup.Plain "Staff Developer"])
                   (Some "jobs.example.com") _ _)).
  - vm_compute. reflexivity.
  - vm_compute. discriminate.
Defined.

Lemma partition_bar_free (s a b : string) :
  Py.partition "|" s = Some (a, b) -> Pipeline.all_chars no_bar a = true.
Proof.
  revert a b. induction s as [|c s IH]; intros a b.
  - cbn. discriminate.
  - cbn [Py.partition]. rewrite prefix_single.
    destruct (ascii_dec "|" c) as [Heq|Hne].
    + intros H. inversion H. reflexivity.
    + destruct (Py.partition "|" s) as [[a' b']|] eqn:Hp; [|discriminate].
      pose proof (IH a' b' eq_refl) as Ha.
      intros H. inversion H; subst. rewrite all_chars_cons, Ha.
      unfold no_bar. destruct (Ascii.eqb_spec c "|") as [->|]; [congruence|reflexivity].
Qed.

Lemma contains_bar_free (s : string) :
  Py.contains "|" s = false -> Pipeline.all_chars no_bar s = true.
Proof.
  induction s as [|c s IH]; [reflexivity|].
  cbn [Py.contains]. rewrite prefix_single. intros H.
  apply orb_false_iff in H. destruct H as [Hc Hs].
  rewrite all_chars_cons, (IH Hs). unfold no_bar.
  destruct (ascii_dec "|" c) as [|Hne]; [discriminate|].
  destruct (Ascii.eqb_spec c "|") as [->|]; [congruence|reflexivity].
Qed.

(** X17.  The job title made from the title of the page (the text before
    the first [" - "], cut at the first bar, stripped) never holds a bar. *)
Theorem title_prefix_no_bar (title_text : string) :
  Pipeline.all_chars no_bar (title_prefix title_text) = true.
Proof.
  unfold title_prefix. cbv zeta.
  set (temp := if Py.contains " - " title_text then _ else _).
  unfold Py.strip, Py.strip_by. apply all_chars_rstrip, all_chars_lstrip.
  destruct (Py.contains "|" temp) eqn:Hc; [|apply contains_bar_free, Hc].
  unfold Py.split1.
  destruct (Py.partition "|" temp) as [[a b]|] eqn:Hp.
  - cbn [Py.first hd]. exact (partition_bar_free _ _ _ Hp).
  - exfalso. clear -Hc Hp. induction temp as [|c s IH]; [discriminate|].
    cbn [Py.contains] in Hc. cbn [Py.partition] in Hp.
    destruct (String.prefix "|" (String c s)); [discriminate|].
    cbn [orb] in Hc. destruct (Py.partition "|" s) as [[a b]|]; [discriminate|].
    exact (IH Hc eq_refl).
Qed.

(** X18.  An [identifier] that is not a dictionary discards the JSON-LD
    step as a whole.  When the first object tagged as a job posting has no
    title and a truthy [identifier] that is not a dictionary, the call of
    [.get] on it raises, the [except] around the loop swallows it, and both
    variables stay unset: neither that block's organization nor any later
    block is read. *)
Theorem json_ld_discarded_by_identifier
    (json_loads : string -> option Json.value) (soup : Node)
    (skipped : list Node) (script : Node) (rest : list Node)
    (data : Json.value) (before after : list Json.value)
    (fields : list (string * Json.value)) :
  find_all (named_with "script" "type" "application/ld+json") soup
    = (skipped ++ script :: rest)%list ->
  List.forallb (Posting.passed_over json_loads) skipped = true ->
  Not_JoAps_WD.script_text script <> "" ->
  json_loads (Not_JoAps_WD.script_text script) = Some data ->
  Posting.offered data = (before ++ Json.Obj fields :: after)%list ->
  List.forallb (fun v => negb (Posting.tagged v)) before = true ->
  Posting.tagged (Json.Obj fields) = true ->
  Json.truthy (Json.get "title" fields) = false ->
  Json.truthy (Json.get "identifier" fields) = true ->
  (forall inner, Json.get "identifier" fields <> Json.Obj inner) ->
  Not_JoAps_WD.json_ld json_loads soup = (None, None).
Proof.
  intros Hfind Hskip Htext Hloads Hoff Hbefore Htag Htitle Hid Hdict.
  unfold Not_JoAps_WD.json_ld. rewrite Hfind, (scan_scripts_passed_over _ _ _ Hskip).
  cbn [Not_JoAps_WD.scan_scripts]. cbv zeta.
  destruct (Not_JoAps_WD.script_text script) as [|c s] eqn:Hs; [contradiction|].
  cbn [Py.is_empty]. rewrite Hloads, candidate_of_offered, Hoff.
  rewrite (candidate_in_untagged _ _ Hbefore).
  cbn [Not_JoAps_WD.candidate_in Not_JoAps_WD.try_extract_jobposting_from_obj].
  cbv zeta. unfold Posting.tagged in Htag. cbv zeta in Htag.
  rewrite Htag. cbn [negb]. rewrite Htitle.
  unfold Not_JoAps_WD.identifier_name. cbv zeta. rewrite Hid.
  destruct (Json.get "identifier" fields) as [| | | | | |inner] eqn:Hi;
    try reflexivity.
  exfalso. exact (Hdict inner eq_refl).
Qed.

Lemma json_ld_discarded_by_identifier_witness :
  Not_JoAps_WD.json_ld Requisition.loads Requisition.coded_page = (None, None) /\
  Not_JoAps_WD.extract_job_info_from_html Requisition.loads Requisition.coded_page
    (Some "jobs.example.com") = ("Staff Developer", "Example").
Proof.
  split; [|vm_compute; reflexivity].
  eapply (json_ld_discarded_by_identifier Requisition.loads Requisition.coded_page
            [] _ _ Requisition.coded_value []).
  - vm_compute. reflexivity.
  - reflexivity.
  - vm_compute. discriminate.
  - vm_compute. reflexivity.
  - reflexivity.
  - reflexivity.
  - reflexivity.
  - reflexivity.
  - reflexivity.
  - intros inner. discriminate.
Defined.

(** * Further facts: the page sent to Notion *)




